(** * make_meta_yml: a shallow embedding of [make_meta_yml.py]

    The script downloads the latest release of a GitHub project, guesses the
    license, reads the requirements file, evaluates [setup.py] up to its
    configuration, validates maintainers and URLs and renders a conda-build
    [meta.yaml].

    Text is modelled with [string]; a character is a code point below 256.
    The process state the script touches (working directory, [sys.path],
    emitted warnings, issued HTTP requests) is an explicit record threaded
    through a state-and-exception monad.  Everything outside the script
    (file system, network, [distutils], [tarfile], [hashlib], [yaml]) is a
    field of an environment record. *)

From Stdlib Require Import String Ascii List ZArith NArith Bool Lia Arith.
From Stdlib Require Import DecimalString.
Import ListNotations.

Set Warnings "-register-all".

Local Open Scope list_scope.
Local Open Scope string_scope.

(** ** Python strings *)

Module PyStr.

(** The line feed character, [chr(10)]. *)
Definition LF : ascii := ascii_of_nat 10.
Definition CR : ascii := ascii_of_nat 13.
Definition nl : string := String LF EmptyString.

(** [str.lower] on one code point below 256: the ASCII capitals and the
    Latin-1 capitals (all of U+00C0..U+00DE but the multiplication sign)
    move up by 32, everything else stays. *)
Definition lower_char (c : ascii) : ascii :=
  let n := nat_of_ascii c in
  if ((65 <=? n) && (n <=? 90))%nat then ascii_of_nat (n + 32)
  else if ((192 <=? n) && (n <=? 222) && negb (n =? 215))%nat
       then ascii_of_nat (n + 32)
  else c.

(** [s.lower()] *)
Fixpoint lower (s : string) : string :=
  match s with
  | EmptyString => EmptyString
  | String c s' => String (lower_char c) (lower s')
  end.

(** [s.startswith(sub)]: [sub] occurs in [s] at position 0. *)
Fixpoint starts_with (s sub : string) {struct sub} : bool :=
  match sub with
  | EmptyString => true
  | String a sub' =>
      match s with
      | EmptyString => false
      | String b s' => Ascii.eqb a b && starts_with s' sub'
      end
  end.

(** [sub in s]: [sub] occurs in [s] at some position. *)
Fixpoint str_in (sub s : string) : bool :=
  starts_with s sub ||
  match s with
  | EmptyString => false
  | String _ s' => str_in sub s'
  end.

(** The scan behind [s.count(sub)] for a non-empty [sub]: left to right,
    a match is counted and its characters are stepped over ([skip] is the
    number of characters of the last match still to step over). *)
Fixpoint count_from (sub : string) (skip : nat) (s : string) : nat :=
  match s with
  | EmptyString => 0
  | String _ s' =>
      match skip with
      | S k => count_from sub k s'
      | O => if starts_with s sub
             then S (count_from sub (String.length sub - 1) s')
             else count_from sub 0 s'
      end
  end.

(** [s.count(sub)]: the number of non-overlapping occurrences; the empty
    string occurs between all characters and at both ends. *)
Definition count (s sub : string) : nat :=
  match sub with
  | EmptyString => S (String.length s)
  | _ => count_from sub 0 s
  end.

(** Line boundaries of [str.splitlines] below code point 256. *)
Definition is_linebreak (c : ascii) : bool :=
  let n := nat_of_ascii c in
  ((n =? 10) || (n =? 11) || (n =? 12) || (n =? 13)
   || (n =? 28) || (n =? 29) || (n =? 30) || (n =? 133))%nat.

(** [s.splitlines()] with [cur] the line collected so far: a boundary
    closes the line (a carriage return directly followed by a line feed is
    one boundary), and the end of the text closes a non-empty line. *)
Fixpoint splitlines_from (cur : string) (s : string) : list string :=
  match s with
  | EmptyString =>
      match cur with
      | EmptyString => []
      | _ => [cur]
      end
  | String c s' =>
      if is_linebreak c then
        cur :: match s' with
               | String d s'' =>
                   if (Ascii.eqb c CR && Ascii.eqb d LF)%bool
                   then splitlines_from EmptyString s''
                   else splitlines_from EmptyString s'
               | EmptyString => splitlines_from EmptyString s'
               end
      else splitlines_from (cur ++ String c EmptyString) s'
  end.

Definition splitlines (s : string) : list string :=
  splitlines_from EmptyString s.

(** [sep.join(parts)] *)
Fixpoint join (sep : string) (parts : list string) : string :=
  match parts with
  | [] => EmptyString
  | [p] => p
  | p :: rest => p ++ sep ++ join sep rest
  end.

(** [repr(s)] for a string without quotes, backslashes or control
    characters (all that is needed for the license identifiers). *)
Definition repr (s : string) : string := "'" ++ s ++ "'".

(** [str(n)] for an integer. *)
Definition str_of_int (n : Z) : string :=
  NilZero.string_of_int (Z.to_int n).

End PyStr.

(** ** [os.path] (posixpath) *)

Module OsPath.

Definition slash : ascii := "/"%char.

Definition startswith_slash (p : string) : bool :=
  match p with
  | String c _ => Ascii.eqb c slash
  | EmptyString => false
  end.

Fixpoint endswith_slash (p : string) : bool :=
  match p with
  | EmptyString => false
  | String c EmptyString => Ascii.eqb c slash
  | String _ p' => endswith_slash p'
  end.

(** [os.path.join(a, b)] *)
Definition join (a b : string) : string :=
  if startswith_slash b then b
  else match a with
       | EmptyString => b
       | _ => if endswith_slash a then a ++ b else a ++ "/" ++ b
       end.

(** [p[:i], p[i:]] for [i = p.rfind("/") + 1], when [p] has a slash. *)
Fixpoint rsplit_slash (p : string) : option (string * string) :=
  match p with
  | EmptyString => None
  | String c p' =>
      match rsplit_slash p' with
      | Some (h, t) => Some (String c h, t)
      | None => if Ascii.eqb c slash then Some (String c EmptyString, p')
                else None
      end
  end.

Fixpoint all_slashes (p : string) : bool :=
  match p with
  | EmptyString => true
  | String c p' => Ascii.eqb c slash && all_slashes p'
  end.

(** [p.rstrip("/")] *)
Fixpoint rstrip_slash (p : string) : string :=
  match p with
  | EmptyString => EmptyString
  | String c p' =>
      match rstrip_slash p' with
      | EmptyString => if Ascii.eqb c slash then EmptyString
                       else String c EmptyString
      | r => String c r
      end
  end.

(** [os.path.basename(p)] *)
Definition basename (p : string) : string :=
  match rsplit_slash p with
  | Some (_, t) => t
  | None => p
  end.

(** [os.path.dirname(p)] *)
Definition dirname (p : string) : string :=
  match rsplit_slash p with
  | Some (h, _) => if all_slashes h then h else rstrip_slash h
  | None => EmptyString
  end.

End OsPath.


(** ** Exceptions, responses and the process state *)

(** The exceptions the script meets.  [ValueError] is what the script
    itself raises; [HTTPError] is raised by [Response.raise_for_status] and
    [str] of it is its message; [KeyError] comes from indexing the decoded
    JSON body; [OtherError] stands for whatever the environment raises
    (I/O errors, connection errors, archive errors, errors of the executed
    setup script), with its class name and message. *)
Inductive exn : Type :=
| ValueError (msg : string)
| HTTPError (msg : string)
| KeyError (key : string)
| OtherError (cls msg : string).

(** [str(exception)] *)
Definition str_exn (e : exn) : string :=
  match e with
  | ValueError msg => msg
  | HTTPError msg => msg
  | KeyError key => PyStr.repr key
  | OtherError _ msg => msg
  end.

Inductive result (A : Type) : Type :=
| Ok (a : A)
| Raise (e : exn).
Arguments Ok {A} a.
Arguments Raise {A} e.

(** A [requests.Response]: the fields the script and [raise_for_status]
    read.  [json] is the outcome of [response.json()], an object with string
    values. *)
Record Response : Type := mkResponse {
  status_code : Z;
  reason : string;
  url : string;
  content : string;
  json : result (list (string * string))
}.

(** What [Distribution.get_version()] and its siblings return. *)
Record Distribution : Type := mkDistribution {
  get_version : string;
  get_url : string;
  get_name : string;
  get_description : string
}.

(** The process-wide state: [os.getcwd()], [sys.path], the warnings shown
    so far and the GET requests made so far with their outcomes (oldest
    first). *)
Record World : Type := mkWorld {
  cwd : string;
  sys_path : list string;
  warnings : list string;
  requests : list (string * result Response)
}.

Definition set_cwd (d : string) (w : World) : World :=
  mkWorld d (sys_path w) (warnings w) (requests w).

Definition set_sys_path (p : list string) (w : World) : World :=
  mkWorld (cwd w) p (warnings w) (requests w).

Definition add_warning (msg : string) (w : World) : World :=
  mkWorld (cwd w) (sys_path w) (warnings w ++ [msg])%list (requests w).

Definition add_request (u : string) (r : result Response) (w : World) : World :=
  mkWorld (cwd w) (sys_path w) (warnings w) (requests w ++ [(u, r)])%list.

(** The document handed to [yaml.dump]: scalars, sequences and mappings
    that keep their insertion order. *)
Inductive Yaml : Type :=
| YStr (s : string)
| YInt (n : Z)
| YSeq (items : list Yaml)
| YMap (entries : list (string * Yaml)).

(** [d[key]] on an insertion-ordered mapping. *)
Fixpoint assoc {A : Type} (key : string) (entries : list (string * A)) : option A :=
  match entries with
  | [] => None
  | (k, v) :: rest => if String.eqb k key then Some v else assoc key rest
  end.

(** [doc[k1][k2]...] *)
Fixpoint yget (path : list string) (doc : Yaml) : option Yaml :=
  match path with
  | [] => Some doc
  | k :: path' =>
      match doc with
      | YMap entries =>
          match assoc k entries with
          | Some v => yget path' v
          | None => None
          end
      | _ => None
      end
  end.

(** What the warning filters make of one call of [warnings.warn]: the
    warning is shown, it is dropped (the default for a text already shown
    from the same line), or it is raised as an exception (filter action
    "error"). *)
Inductive WarnOutcome : Type :=
| Shown
| Ignored
| Raised.

(** Everything outside the script.
    - [os_walk top]: the triples [(root, dirs, files)] that [os.walk(top)]
      yields, in order;
    - [open_read path]: [open(path).read()], the decoded text or the error;
    - [chdir_error d]: the error [os.chdir(d)] raises, if any;
    - [run_setup w script]: [distutils.core.run_setup(script,
      stop_after="config")] in process state [w]: the setup script runs in
      the process of the caller, so the call gives the distribution or the
      error together with the process state the script leaves;
    - [warn_filter w msg]: what the warning filters in force do with a
      [UserWarning] of text [msg] issued at line 217 in state [w];
    - [http_get log u]: [requests.get(u)] after the requests of [log];
    - [extractall archive]: a fresh [TemporaryDirectory] filled by
      [tarfile.open(...).extractall], given by its name;
    - [sha256_hexdigest], [yaml_dump]: [hashlib] and [yaml.dump] with the
      script's [CondaYamlDumper]. *)
Record Env : Type := mkEnv {
  os_walk : string -> list (string * list string * list string);
  open_read : string -> result string;
  chdir_error : string -> option exn;
  run_setup : World -> string -> result Distribution * World;
  warn_filter : World -> string -> WarnOutcome;
  http_get : list (string * result Response) -> string -> result Response;
  extractall : string -> result string;
  sha256_hexdigest : string -> string;
  yaml_dump : Yaml -> string
}.

(** ** The monad of the script: state with exceptions.  A raised exception
    keeps the state reached so far. *)

Definition M (A : Type) : Type := World -> result A * World.

Definition ret {A : Type} (a : A) : M A := fun w => (Ok a, w).

Definition raise {A : Type} (e : exn) : M A := fun w => (Raise e, w).

Definition bind {A B : Type} (m : M A) (k : A -> M B) : M B :=
  fun w =>
    match m w with
    | (Ok a, w') => k a w'
    | (Raise e, w') => (Raise e, w')
    end.

Definition lift {A : Type} (r : result A) : M A := fun w => (r, w).

(** [try: m  except requests.exceptions.HTTPError as exception: handler] *)
Definition except_HTTPError {A : Type} (m : M A) (handler : exn -> M A) : M A :=
  fun w =>
    match m w with
    | (Raise (HTTPError msg), w') => handler (HTTPError msg) w'
    | other => other
    end.

Declare Scope monad_scope.
Delimit Scope monad_scope with monad.
Notation "x <- m ;; k" := (bind m (fun x => k))
  (at level 61, m at next level, right associativity) : monad_scope.
Notation "' pat <- m ;; k" := (bind m (fun x => match x with pat => k end))
  (at level 61, pat pattern, m at next level, right associativity) : monad_scope.
Notation "m ;; k" := (bind m (fun _ => k))
  (at level 61, right associativity) : monad_scope.
Local Open Scope monad_scope.

(** ** The script *)

(** [sum(d.values())] and [max(d, key=lambda key: d[key])] on an
    insertion-ordered dict: [max] walks the keys in order and replaces its
    candidate only by a key with a strictly greater value. *)
Definition dict_sum (d : list (string * nat)) : nat :=
  list_sum (map snd d).

Fixpoint max_from (best : string * nat) (d : list (string * nat)) : string :=
  match d with
  | [] => fst best
  | kv :: d' =>
      if (snd best <? snd kv)%nat then max_from kv d' else max_from best d'
  end.

Definition dict_max (d : list (string * nat)) : result string :=
  match d with
  | [] => Raise (ValueError "max() arg is an empty sequence")
  | kv :: d' => Ok (max_from kv d')
  end.

(** [str(d.keys())] *)
Definition str_dict_keys (keys : list string) : string :=
  "dict_keys([" ++ PyStr.join ", " (map PyStr.repr keys) ++ "])".

(** [Response.raise_for_status()] of the requests library. *)
Definition raise_for_status (r : Response) : result unit :=
  if ((400 <=? status_code r) && (status_code r <? 500))%Z then
    Raise (HTTPError (PyStr.str_of_int (status_code r) ++ " Client Error: "
                      ++ reason r ++ " for url: " ++ url r))
  else if ((500 <=? status_code r) && (status_code r <? 600))%Z then
    Raise (HTTPError (PyStr.str_of_int (status_code r) ++ " Server Error: "
                      ++ reason r ++ " for url: " ++ url r))
  else Ok tt.

(** [response.json()[key]] *)
Definition json_getitem (r : Response) (key : string) : result string :=
  match json r with
  | Raise e => Raise e
  | Ok obj =>
      match assoc key obj with
      | Some v => Ok v
      | None => Raise (KeyError key)
      end
  end.

(** [[filename for filename in files if needle in filename.lower()]] *)
Definition potential (needle : string) (files : list string) : list string :=
  filter (fun filename => PyStr.str_in needle (PyStr.lower filename)) files.

(** The [for root, _, files in os.walk(...)] loop shared by the three
    readers: the path of the first matching file name of the first
    directory that has one, or [None] when the loop reaches its [else]. *)
Fixpoint first_match (needle : string)
    (walk : list (string * list string * list string)) : option string :=
  match walk with
  | [] => None
  | (root, _, files) :: rest =>
      match potential needle files with
      | filename :: _ => Some (OsPath.join root filename)
      | [] => first_match needle rest
      end
  end.

(** The [licenses] dict of [parse_license]. *)
Definition licenses (content : string) : list (string * nat) :=
  let lower_content := PyStr.lower content in
  [ ("MIT", PyStr.count content "MIT");
    ("Apache-2.0", PyStr.count lower_content "apache");
    ("GPL-2.0-or-later", PyStr.count content "GNU");
    ("BSD-3-Clause", PyStr.count lower_content "bsd 3") ].

Definition license_not_found : exn :=
  ValueError "Could not find license file.".

Definition license_no_keyword (filepath : string) (d : list (string * nat)) : exn :=
  ValueError ("Could not find a license in " ++ filepath ++ ". Looked for: "
              ++ str_dict_keys (map fst d)).

Section Script.

Variable E : Env.

(** [requests.get(u)]: the request and its outcome are appended to the
    log. *)
Definition requests_get (u : string) : M Response :=
  fun w =>
    let r := http_get E (requests w) u in
    (r, add_request u r w).

Definition os_getcwd : M string := fun w => (Ok (cwd w), w).

Definition os_chdir (d : string) : M unit :=
  fun w =>
    match chdir_error E d with
    | Some e => (Raise e, w)
    | None => (Ok tt, set_cwd d w)
    end.

(** [sys.path.insert(0, d)] *)
Definition sys_path_insert0 (d : string) : M unit :=
  fun w => (Ok tt, set_sys_path (d :: sys_path w) w).

(** [warnings.warn(msg)]: a [UserWarning] that the filters in force show,
    drop or raise. *)
Definition warnings_warn (msg : string) : M unit :=
  fun w =>
    match warn_filter E w msg with
    | Shown => (Ok tt, add_warning msg w)
    | Ignored => (Ok tt, w)
    | Raised => (Raise (OtherError "UserWarning" msg), w)
    end.

Definition get_latest_release (username repo : string) : M string :=
  response <- requests_get ("https://api.github.com/repos/" ++ username
                            ++ "/" ++ repo ++ "/releases/latest") ;;
  tag_name <- lift (json_getitem response "tag_name") ;;
  ret tag_name.

Definition download_tar_gz (username repo tag_name : string) : M Response :=
  let url := "https://github.com/" ++ username ++ "/" ++ repo
             ++ "/archive/refs/tags/" ++ tag_name ++ ".tar.gz" in
  response <- requests_get url ;;
  lift (raise_for_status response) ;;
  ret response.

Definition extract_tar_gz (response : Response) : M string :=
  lift (extractall E (content response)).

Definition parse_license (extracted_tar_gz_path : string) : M (string * string) :=
  match first_match "license" (os_walk E extracted_tar_gz_path) with
  | None => raise license_not_found
  | Some filepath =>
      content <- lift (open_read E (OsPath.join extracted_tar_gz_path filepath)) ;;
      let licenses := licenses content in
      if (dict_sum licenses =? 0)%nat then
        raise (license_no_keyword filepath licenses)
      else
        most_likely <- lift (dict_max licenses) ;;
        ret (most_likely, OsPath.basename filepath)
  end.

Definition get_requirements (extracted_tar_gz_path : string) : M (list string) :=
  match first_match "requirements" (os_walk E extracted_tar_gz_path) with
  | None => raise (ValueError "Could not find requirements file.")
  | Some filepath =>
      text <- lift (open_read E filepath) ;;
      ret (PyStr.splitlines text)
  end.

Definition parse_setup_py (extracted_tar_gz_path : string) : M Distribution :=
  match first_match "setup" (os_walk E extracted_tar_gz_path) with
  | None => raise (ValueError "Could not find setup.py file.")
  | Some filepath =>
      current_dir <- os_getcwd ;;
      os_chdir (OsPath.dirname filepath) ;;
      sys_path_insert0 (OsPath.dirname filepath) ;;
      distribution <- (fun w => run_setup E w filepath) ;;
      os_chdir current_dir ;;
      ret distribution
  end.

Definition maintainer_not_found (maintainer : string) : exn :=
  ValueError ("'" ++ maintainer ++ "' could not be found as a GitHub user").

Fixpoint validate_maintainers (maintainers : list string) : M unit :=
  match maintainers with
  | [] => ret tt
  | maintainer :: rest =>
      except_HTTPError
        (response <- requests_get ("https://api.github.com/users/" ++ maintainer) ;;
         lift (raise_for_status response))
        (fun exception =>
           if PyStr.str_in "404" (str_exn exception)
           then raise (maintainer_not_found maintainer)
           else raise exception) ;;
      validate_maintainers rest
  end.

Definition url_not_200 (url : string) (status : Z) : exn :=
  ValueError ("URL: " ++ url ++ " returned non-200 status code: "
              ++ PyStr.str_of_int status).

Fixpoint validate_urls (urls : list string) : M unit :=
  match urls with
  | [] => ret tt
  | url :: rest =>
      if (String.length url =? 0)%nat then validate_urls rest
      else
        response <- requests_get url ;;
        let status := status_code response in
        if negb (status =? 200)%Z then raise (url_not_200 url status)
        else validate_urls rest
  end.

Definition version_warning (version tag_name : string) : string :=
  "Version '" ++ version
  ++ "' in setup.py may not correspond to release tag name: '"
  ++ tag_name ++ "'".

Definition preamble_of (package_name version : string) : string :=
  PyStr.join PyStr.nl
    [ "{" ++ "% set name = '" ++ package_name ++ "' %" ++ "}";
      "{" ++ "% set version = '" ++ version ++ "' %" ++ "}" ].

(** [make_meta_yaml] up to the [meta] dict: the preamble and the
    document. *)
Definition make_meta (username repo : string) (maintainers : list string)
    (documentation_url : string) : M (string * Yaml) :=
  let github_url := "https://github.com/" ++ username ++ "/" ++ repo in
  tag_name <- get_latest_release username repo ;;
  response <- download_tar_gz username repo tag_name ;;
  extracted_repo <- extract_tar_gz response ;;
  '(repo_license, license_filename) <- parse_license extracted_repo ;;
  requirements <- get_requirements extracted_repo ;;
  distribution_info <- parse_setup_py extracted_repo ;;
  let version := get_version distribution_info in
  let home_url := get_url distribution_info in
  let package_name := get_name distribution_info in
  let summary := get_description distribution_info in
  let sha256 := sha256_hexdigest E (content response) in
  validate_maintainers maintainers ;;
  validate_urls [github_url; home_url; documentation_url] ;;
  (if negb (PyStr.str_in version tag_name)
   then warnings_warn (version_warning version tag_name)
   else ret tt) ;;
  let preamble := preamble_of package_name version in
  let meta :=
    YMap [
      ("package", YMap [("name", YStr "{{ name | lower }}");
                        ("version", YStr "{{ version }}")]);
      ("source", YMap [("url", YStr ("https://github.com/" ++ username ++ "/"
                                     ++ repo ++ "/archive/refs/tags/"
                                     ++ tag_name ++ ".tar.gz"));
                       ("sha256", YStr sha256)]);
      ("build", YMap [("number", YInt 0);
                      ("script", YStr "{{ PYTHON }} -m pip install . -vv")]);
      ("requirements",
       YMap [("host", YSeq (map YStr (["python"; "pip"] ++ requirements)%list));
             ("run", YSeq (map YStr (["python"] ++ requirements)%list))]);
      ("test", YMap [("imports", YSeq [YStr package_name])]);
      ("about", YMap [("home", YStr home_url);
                      ("license", YStr repo_license);
                      ("license_file", YStr license_filename);
                      ("summary", YStr summary);
                      ("doc_url", YStr documentation_url);
                      ("dev_url", YStr github_url)]);
      ("extra", YMap [("recipe_maintainers", YSeq (map YStr maintainers))])
    ] in
  ret (preamble, meta).

(** [make_meta_yaml]: the preamble, a blank line and the dumped
    document. *)
Definition make_meta_yaml (username repo : string) (maintainers : list string)
    (documentation_url : string) : M string :=
  '(preamble, meta) <- make_meta username repo maintainers documentation_url ;;
  let meta_yml_string := preamble ++ PyStr.nl ++ PyStr.nl ++ yaml_dump E meta in
  ret meta_yml_string.

End Script.

(** ** A fixture: release [v1.2.0] of [octo/samplepkg]

    The archive unpacks to a LICENSE with the text "MIT License", a
    requirements.txt with three requirements and a blank line, and a
    setup.py.  The text of the LICENSE, the outcome of the setup script and
    the answer of the user lookup are parameters. *)

Module Fixture.

Definition tmp : string := "/tmp/tmpk3v9x2".
Definition top : string := tmp ++ "/samplepkg-1.2.0".

Definition walk (path : string) : list (string * list string * list string) :=
  if String.eqb path tmp then
    [ (tmp, ["samplepkg-1.2.0"], []);
      (top, ["samplepkg"], ["LICENSE"; "README.md"; "requirements.txt"; "setup.py"]);
      (top ++ "/samplepkg", [], ["__init__.py"]) ]
  else [].

Definition requirements_txt : string :=
  "requests>=2.0" ++ PyStr.nl ++ PyStr.nl ++ "pyyaml" ++ PyStr.nl ++ "numpy".

Definition read_files (license_file requirements_file : result string)
    (path : string) : result string :=
  if String.eqb path (top ++ "/LICENSE") then license_file
  else if String.eqb path (top ++ "/requirements.txt") then requirements_file
  else Raise (OtherError "FileNotFoundError" path).

Definition read (license_text path : string) : result string :=
  read_files (Ok license_text) (Ok requirements_txt) path.

Definition dist (version : string) : Distribution :=
  mkDistribution version "https://example.com" "samplepkg" "A sample package".

Definition no_json : result (list (string * string)) :=
  Raise (OtherError "JSONDecodeError" "Expecting value").

Definition users : string := "https://api.github.com/users/".

Definition get (user_status : Z) (user_reason : string)
    (log : list (string * result Response)) (u : string) : result Response :=
  if String.eqb u "https://api.github.com/repos/octo/samplepkg/releases/latest"
  then Ok (mkResponse 200 "OK" u "" (Ok [("tag_name", "v1.2.0")]))
  else if PyStr.starts_with u users
  then Ok (mkResponse user_status user_reason u "" no_json)
  else if String.eqb u "https://example.com/broken"
  then Ok (mkResponse 503 "Service Unavailable" u "" no_json)
  else Ok (mkResponse 200 "OK" u "archive" no_json).

(** A plain block rendering that stands for [yaml.dump]. *)
Fixpoint dump (indent : string) (doc : Yaml) : string :=
  match doc with
  | YStr s => s ++ PyStr.nl
  | YInt n => PyStr.str_of_int n ++ PyStr.nl
  | YSeq items =>
      PyStr.nl ++
      (fix go (l : list Yaml) : string :=
         match l with
         | [] => EmptyString
         | item :: l' => indent ++ "- " ++ dump (indent ++ "  ") item ++ go l'
         end) items
  | YMap entries =>
      PyStr.nl ++
      (fix go (l : list (string * Yaml)) : string :=
         match l with
         | [] => EmptyString
         | (k, v) :: l' => indent ++ k ++ ": " ++ dump (indent ++ "  ") v ++ go l'
         end) entries
  end.

(** The default warning filters, for the one line of the script that
    warns: a text is shown the first time and dropped afterwards. *)
Definition default_filter (w : World) (msg : string) : WarnOutcome :=
  if existsb (String.eqb msg) (warnings w) then Ignored else Shown.

Definition make (open_read : string -> result string)
    (script : World -> string -> result Distribution * World)
    (filter : World -> string -> WarnOutcome)
    (user_status : Z) (user_reason : string) : Env :=
  mkEnv walk open_read (fun _ => None) script filter
        (get user_status user_reason)
        (fun _ => Ok tmp) (fun _ => "0f3a") (dump EmptyString).

(** A setup script that gives [setup] and leaves the process as it is. *)
Definition env_with (license_text : string) (setup : result Distribution)
    (user_status : Z) (user_reason : string) : Env :=
  make (read license_text) (fun w _ => (setup, w)) default_filter
       user_status user_reason.

Definition env : result Distribution -> Z -> string -> Env :=
  env_with "MIT License".

(** Everything succeeds, the version matches the tag. *)
Definition good : Env := env (Ok (dist "1.2.0")) 200 "OK".

(** The setup script declares another version than the tag. *)
Definition stale : Env := env (Ok (dist "1.1.0")) 200 "OK".

(** The setup script is malformed. *)
Definition malformed : Env :=
  env (Raise (OtherError "SyntaxError" "invalid syntax")) 200 "OK".

(** The user lookup is refused (rate limit). *)
Definition limited : Env := env (Ok (dist "1.2.0")) 403 "rate limit exceeded".

(** The user lookup finds nobody. *)
Definition nobody : Env := env (Ok (dist "1.2.0")) 404 "Not Found".

(** The LICENSE names none of the four keywords. *)
Definition unlicensed : Env :=
  env_with "All rights reserved." (Ok (dist "1.2.0")) 200 "OK".

(** The LICENSE cannot be decoded. *)
Definition undecodable : Env :=
  make (read_files
          (Raise (OtherError "UnicodeDecodeError"
                    "'utf-8' codec can't decode byte 0xe9"))
          (Ok requirements_txt))
       (fun w _ => (Ok (dist "1.2.0"), w)) default_filter 200 "OK".

(** The one line of requirements.txt holds a form feed. *)
Definition formfeed : Env :=
  make (read_files (Ok "MIT License")
          (Ok ("numpy" ++ String (ascii_of_nat 12) "scipy" ++ PyStr.nl)))
       (fun w _ => (Ok (dist "1.2.0"), w)) default_filter 200 "OK".

(** The setup script declares another version than the tag and the filters
    turn warnings into errors. *)
Definition strict : Env :=
  make (read "MIT License") (fun w _ => (Ok (dist "1.1.0"), w))
       (fun _ _ => Raised) 200 "OK".

(** The setup script warns about an option it does not know, puts a
    directory of its own on [sys.path] and moves to another directory. *)
Definition noisy_script (w : World) (script : string) : result Distribution * World :=
  (Ok (dist "1.2.0"),
   mkWorld "/tmp" ("/opt/build-helpers" :: sys_path w)
     (warnings w ++ ["Unknown distribution option: 'foo'"])%list (requests w)).

Definition noisy : Env :=
  make (read "MIT License") noisy_script default_filter 200 "OK".

Definition w0 : World :=
  mkWorld "/home/user" ["/usr/lib/python3.9"] [] [].

(** A process that has already shown the version warning of [stale]. *)
Definition w_warned : World :=
  mkWorld "/home/user" ["/usr/lib/python3.9"]
    ["Version '1.1.0' in setup.py may not correspond to release tag name: 'v1.2.0'"]
    [].

End Fixture.

(** A computation that issues no warning, whatever its outcome. *)
Definition keeps_warnings {A : Type} (m : M A) : Prop :=
  forall w, warnings (snd (m w)) = warnings w.

(** ** The words of the specification *)

Module Spec.

(** The number of positions of [s] at which [sub] occurs. *)
Fixpoint occurrences (sub s : string) : nat :=
  match s with
  | EmptyString => 0
  | String _ s' =>
      (if PyStr.starts_with s sub then 1 else 0) + occurrences sub s'
  end.

(** Two characters that differ at most in case. *)
Definition same_letter (a b : ascii) : bool :=
  Ascii.eqb (PyStr.lower_char a) (PyStr.lower_char b).

(** [sub] occurs at position 0 of [s], case ignored. *)
Fixpoint starts_with_nocase (s sub : string) {struct sub} : bool :=
  match sub with
  | EmptyString => true
  | String a sub' =>
      match s with
      | EmptyString => false
      | String b s' => same_letter a b && starts_with_nocase s' sub'
      end
  end.

(** The number of positions of [s] at which [sub] occurs, case ignored. *)
Fixpoint occurrences_nocase (sub s : string) : nat :=
  match s with
  | EmptyString => 0
  | String _ s' =>
      (if starts_with_nocase s sub then 1 else 0) + occurrences_nocase sub s'
  end.

(** The keyword count of each license identifier, in the fixed order. *)
Definition votes (text : string) : list (string * nat) :=
  [ ("MIT", occurrences "MIT" text);
    ("Apache-2.0", occurrences_nocase "apache" text);
    ("GPL-2.0-or-later", occurrences "GNU" text);
    ("BSD-3-Clause", occurrences_nocase "bsd 3" text) ].

Definition identifiers : list string :=
  ["MIT"; "Apache-2.0"; "GPL-2.0-or-later"; "BSD-3-Clause"].

(** [winner d k v]: [(k, v)] is an entry of [d] with the highest count,
    and the first such one. *)
Definition winner (d : list (string * nat)) (k : string) (v : nat) : Prop :=
  exists before after,
    d = (before ++ (k, v) :: after)%list /\
    Forall (fun kv => snd kv < v) before /\
    Forall (fun kv => snd kv <= v) after.

(** No file name that the walk lists contains [needle], case ignored. *)
Definition no_file_named (needle : string)
    (walk : list (string * list string * list string)) : Prop :=
  forall root dirs files filename,
    In (root, dirs, files) walk -> In filename files ->
    PyStr.str_in needle (PyStr.lower filename) = false.

(** A line: a text without a line boundary. *)
Fixpoint is_line (s : string) : bool :=
  match s with
  | EmptyString => true
  | String c s' => negb (PyStr.is_linebreak c) && is_line s'
  end.

(** The text of a file whose lines are [lines], each ended by a line
    feed. *)
Fixpoint unlines (lines : list string) : string :=
  match lines with
  | [] => EmptyString
  | l :: rest => l ++ PyStr.nl ++ unlines rest
  end.

(** The text without its line boundary characters. *)
Fixpoint strip_breaks (s : string) : string :=
  match s with
  | EmptyString => EmptyString
  | String c s' =>
      if PyStr.is_linebreak c then strip_breaks s'
      else String c (strip_breaks s')
  end.

(** [s[n:]] *)
Fixpoint drop (n : nat) (s : string) : string :=
  match n, s with
  | O, _ => s
  | S n', String _ s' => drop n' s'
  | S _, EmptyString => EmptyString
  end.

(** A word none of whose proper endings is also a beginning of it: two
    occurrences of such a word never overlap. *)
Definition border_free (p : string) : bool :=
  forallb (fun j => negb (PyStr.starts_with p (drop j p)))
          (seq 1 (String.length p - 1)).

Definition is_200 (outcome : result Response) : bool :=
  match outcome with
  | Ok response => (status_code response =? 200)%Z
  | Raise _ => false
  end.

Definition nonempty (s : string) : bool := negb (String.length s =? 0)%nat.

End Spec.

(** ** Words for the rest of the script *)

Module Run.

(** The three URLs the script builds on the forge. *)
Definition latest_url (username repo : string) : string :=
  "https://api.github.com/repos/" ++ username ++ "/" ++ repo ++ "/releases/latest".

Definition archive_url (username repo tag_name : string) : string :=
  "https://github.com/" ++ username ++ "/" ++ repo ++ "/archive/refs/tags/"
  ++ tag_name ++ ".tar.gz".

Definition users_url (maintainer : string) : string :=
  "https://api.github.com/users/" ++ maintainer.

Definition github_url (username repo : string) : string :=
  "https://github.com/" ++ username ++ "/" ++ repo.

(** A name without a slash, as a directory entry is. *)
Fixpoint slash_free (s : string) : bool :=
  match s with
  | EmptyString => true
  | String c s' => negb (Ascii.eqb c OsPath.slash) && slash_free s'
  end.

(** A request that gave a response on which [raise_for_status] is
    silent. *)
Definition passes (outcome : result Response) : bool :=
  match outcome with
  | Ok response =>
      match raise_for_status response with
      | Ok _ => true
      | Raise _ => false
      end
  | Raise _ => false
  end.

(** The exception a request leaves behind when it does not pass. *)
Definition error_of (outcome : result Response) : option exn :=
  match outcome with
  | Ok response =>
      match raise_for_status response with
      | Ok _ => None
      | Raise e => Some e
      end
  | Raise e => Some e
  end.

(** One of the four keywords occurs in the text. *)
Definition keyword_in (text : string) : bool :=
  PyStr.str_in "MIT" text || PyStr.str_in "apache" (PyStr.lower text)
  || PyStr.str_in "GNU" text || PyStr.str_in "bsd 3" (PyStr.lower text).

(** A computation that issues no request, whatever its outcome. *)
Definition keeps_requests {A : Type} (m : M A) : Prop :=
  forall w, requests (snd (m w)) = requests w.

(** A computation that leaves the working directory and [sys.path] as they
    are, whatever its outcome. *)
Definition keeps_dirs {A : Type} (m : M A) : Prop :=
  forall w, cwd (snd (m w)) = cwd w /\ sys_path (snd (m w)) = sys_path w.

(** A computation that has issued no warning when it raises. *)
Definition fails_quietly {A : Type} (m : M A) : Prop :=
  forall w e w', m w = (Raise e, w') -> warnings w' = warnings w.

(** The steps of a run up to the version check, each started in the state
    the one before left: the release lookup, the download, the extraction
    to [tmp], the three readers on [tmp] and the two validators. *)
Definition stages (E : Env) (username repo : string)
    (maintainers : list string) (documentation_url : string) (w : World)
    (tag_name : string) (w1 : World) (response : Response) (w2 : World)
    (tmp : string) (w3 : World) (license : string * string) (w4 : World)
    (requirements : list string) (w5 : World) (distribution : Distribution)
    (w6 w7 w8 : World) : Prop :=
  get_latest_release E username repo w = (Ok tag_name, w1) /\
  download_tar_gz E username repo tag_name w1 = (Ok response, w2) /\
  extract_tar_gz E response w2 = (Ok tmp, w3) /\
  parse_license E tmp w3 = (Ok license, w4) /\
  get_requirements E tmp w4 = (Ok requirements, w5) /\
  parse_setup_py E tmp w5 = (Ok distribution, w6) /\
  validate_maintainers E maintainers w6 = (Ok tt, w7) /\
  validate_urls E [github_url username repo; get_url distribution;
                   documentation_url] w7 = (Ok tt, w8).

(** The document of the manifest, section by section, from the results of
    the stages. *)
Definition document (username repo tag_name sha256 : string)
    (license : string * string) (requirements : list string)
    (distribution : Distribution) (documentation_url : string)
    (maintainers : list string) : Yaml :=
  YMap [
    ("package", YMap [("name", YStr "{{ name | lower }}");
                      ("version", YStr "{{ version }}")]);
    ("source", YMap [("url", YStr (archive_url username repo tag_name));
                     ("sha256", YStr sha256)]);
    ("build", YMap [("number", YInt 0);
                    ("script", YStr "{{ PYTHON }} -m pip install . -vv")]);
    ("requirements",
     YMap [("host", YSeq (map YStr ("python" :: "pip" :: requirements)));
           ("run", YSeq (map YStr ("python" :: requirements)))]);
    ("test", YMap [("imports", YSeq [YStr (get_name distribution)])]);
    ("about", YMap [("home", YStr (get_url distribution));
                    ("license", YStr (fst license));
                    ("license_file", YStr (snd license));
                    ("summary", YStr (get_description distribution));
                    ("doc_url", YStr documentation_url);
                    ("dev_url", YStr (github_url username repo))]);
    ("extra", YMap [("recipe_maintainers", YSeq (map YStr maintainers))])
  ].

(** The text of the warning about a version that is not part of the
    tag. *)
Definition mismatch_message (distribution : Distribution) (tag_name : string) : string :=
  "Version '" ++ get_version distribution
  ++ "' in setup.py may not correspond to release tag name: '" ++ tag_name ++ "'".

(** The manifest: the preamble, a blank line and the dumped document. *)
Definition manifest (E : Env) (preamble : string) (doc : Yaml) : string :=
  preamble ++ PyStr.nl ++ PyStr.nl ++ yaml_dump E doc.

(** The run ends with the error of the step, in the state the step left,
    whenever the step raises. *)
Definition aborts_with {A : Type} (run : result string * World)
    (step : result A * World) : Prop :=
  forall e w', step = (Raise e, w') -> run = (Raise e, w').

(** The two lines in front of the document. *)
Definition preamble (distribution : Distribution) : string :=
  "{% set name = '" ++ get_name distribution ++ "' %}" ++ PyStr.nl
  ++ "{% set version = '" ++ get_version distribution ++ "' %}".

(** The keys of a mapping, in order. *)
Definition keys (doc : Yaml) : list string :=
  match doc with
  | YMap entries => map fst entries
  | _ => []
  end.

End Run.

(** * Properties *)

(** ** The model at work *)

Example lower_example : PyStr.lower "Apache License 2.0" = "apache license 2.0".
Proof. reflexivity. Qed.

Example count_example : PyStr.count "aaaa" "aa" = 2 /\ PyStr.count "ab" "" = 3.
Proof. split; reflexivity. Qed.

Example licenses_example :
  licenses "GNU gnu Apache APACHE MIT BSD 3 bsd 3 Bsd 3"
  = [("MIT", 1); ("Apache-2.0", 2); ("GPL-2.0-or-later", 1); ("BSD-3-Clause", 3)].
Proof. reflexivity. Qed.

Example tie_example :
  dict_max (licenses "MIT or Apache, GNU") = Ok "MIT" /\
  dict_max (licenses "apache or GNU") = Ok "Apache-2.0".
Proof. split; reflexivity. Qed.

Example splitlines_example :
  PyStr.splitlines
    ("a" ++ PyStr.nl ++ PyStr.nl ++ "b" ++ String PyStr.CR PyStr.nl ++ "c" ++ PyStr.nl)
  = ["a"; ""; "b"; "c"].
Proof. reflexivity. Qed.

Example path_example :
  OsPath.join "/tmp/x" "pkg" = "/tmp/x/pkg" /\
  OsPath.join "/tmp/x" "/tmp/x/pkg/LICENSE" = "/tmp/x/pkg/LICENSE" /\
  OsPath.dirname "/tmp/x/pkg/setup.py" = "/tmp/x/pkg" /\
  OsPath.basename "/tmp/x/pkg/LICENSE" = "LICENSE".
Proof. repeat split. Qed.

Example fixture_example :
  exists preamble meta w',
    make_meta Fixture.good "octo" "samplepkg" ["alice"] "" Fixture.w0
      = (Ok (preamble, meta), w') /\
    yget ["about"; "license"] meta = Some (YStr "MIT") /\
    yget ["about"; "license_file"] meta = Some (YStr "LICENSE") /\
    yget ["test"; "imports"] meta = Some (YSeq [YStr "samplepkg"]) /\
    warnings w' = [] /\ cwd w' = cwd Fixture.w0.
Proof.
  do 3 eexists. split; [vm_compute; reflexivity|]. repeat split.
Qed.

(** ** Strings *)

Lemma append_assoc (a b c : string) : (a ++ b) ++ c = a ++ (b ++ c).
Proof.
  induction a as [|x a IH]; simpl; [reflexivity | now rewrite IH].
Qed.

Lemma append_empty_r (a : string) : a ++ "" = a.
Proof.
  induction a as [|x a IH]; simpl; [reflexivity | now rewrite IH].
Qed.

Lemma starts_with_cons (s sub : string) (a b : ascii) :
  PyStr.starts_with (String b s) (String a sub)
  = (Ascii.eqb a b && PyStr.starts_with s sub)%bool.
Proof. reflexivity. Qed.

Lemma starts_with_refl (s : string) : PyStr.starts_with s s = true.
Proof.
  induction s as [|c s IH]; [reflexivity|].
  rewrite starts_with_cons, Ascii.eqb_refl. exact IH.
Qed.

Lemma starts_with_append (s t : string) : PyStr.starts_with (s ++ t) s = true.
Proof.
  induction s as [|c s IH]; [reflexivity|].
  simpl append. rewrite starts_with_cons, Ascii.eqb_refl. exact IH.
Qed.

(** Two words at the start of one text: the shorter starts the longer. *)
Lemma starts_with_both (q p s : string) :
  PyStr.starts_with s q = true ->
  PyStr.starts_with s p = true ->
  String.length q <= String.length p ->
  PyStr.starts_with p q = true.
Proof.
  revert p s. induction q as [|a q IH]; intros p s Hq Hp Hlen; [reflexivity|].
  destruct s as [|c s]; [discriminate Hq|].
  destruct p as [|b p]; [simpl in Hlen; lia|].
  rewrite starts_with_cons in Hq, Hp |- *.
  apply andb_true_iff in Hq as [Hac Hq].
  apply andb_true_iff in Hp as [Hbc Hp].
  apply Ascii.eqb_eq in Hac, Hbc. subst a b.
  rewrite Ascii.eqb_refl. simpl in Hlen.
  apply (IH p s); [assumption | assumption | lia].
Qed.

Lemma str_in_here (sub s : string) :
  PyStr.starts_with s sub = true -> PyStr.str_in sub s = true.
Proof.
  intros H. destruct s; simpl; rewrite H; reflexivity.
Qed.

Lemma str_in_cons (sub s : string) (c : ascii) :
  PyStr.str_in sub s = true -> PyStr.str_in sub (String c s) = true.
Proof.
  intros H. simpl. rewrite H. apply orb_true_r.
Qed.

Lemma str_in_append_l (sub a b : string) :
  PyStr.str_in sub b = true -> PyStr.str_in sub (a ++ b) = true.
Proof.
  intros H. induction a as [|c a IH]; [exact H|].
  simpl append. apply str_in_cons, IH.
Qed.

Lemma starts_with_append_r (s t sub : string) :
  PyStr.starts_with s sub = true -> PyStr.starts_with (s ++ t) sub = true.
Proof.
  revert s. induction sub as [|a sub IH]; intros s H; [reflexivity|].
  destruct s as [|b s]; [discriminate H|].
  simpl append. rewrite starts_with_cons in H |- *.
  apply andb_true_iff in H as [Hab H]. rewrite Hab. simpl. apply IH, H.
Qed.

Lemma str_in_append_r (sub a b : string) :
  PyStr.str_in sub a = true -> PyStr.str_in sub (a ++ b) = true.
Proof.
  induction a as [|c a IH]; intros H.
  - simpl in H. rewrite orb_false_r in H.
    destruct sub; [|discriminate H]. destruct b; reflexivity.
  - simpl in H. apply orb_true_iff in H as [H|H].
    + apply str_in_here.
      exact (starts_with_append_r (String c a) b sub H).
    + simpl append. apply str_in_cons, IH, H.
Qed.

(** ** Counting occurrences *)

Lemma drop_length (j : nat) (p : string) :
  String.length (Spec.drop j p) = String.length p - j.
Proof.
  revert p. induction j as [|j IH]; intros p; simpl.
  - lia.
  - destruct p as [|c p]; simpl; [reflexivity | apply IH].
Qed.

Lemma drop_step (j : nat) (p : string) :
  j < String.length p ->
  exists c, Spec.drop j p = String c (Spec.drop (S j) p).
Proof.
  revert p. induction j as [|j IH]; intros p Hj.
  - destruct p as [|c p]; simpl in Hj; [lia|]. now exists c.
  - destruct p as [|c p]; simpl in Hj; [lia|].
    destruct (IH p) as [d Hd]; [lia|]. now exists d.
Qed.

Lemma border_free_spec (p : string) (j : nat) :
  Spec.border_free p = true ->
  1 <= j < String.length p ->
  PyStr.starts_with p (Spec.drop j p) = false.
Proof.
  unfold Spec.border_free. intros H Hj.
  rewrite forallb_forall in H.
  apply negb_true_iff, H, in_seq. lia.
Qed.

(** While the scan steps over the last [k] characters of a match of a
    border-free word, it misses no occurrence. *)
Lemma count_from_occurrences (p : string) :
  Spec.border_free p = true ->
  forall s k,
    k = 0 \/
    (k < String.length p /\
     PyStr.starts_with s (Spec.drop (String.length p - k) p) = true) ->
    PyStr.count_from p k s = Spec.occurrences p s.
Proof.
  intros Hp. induction s as [|c s IH]; intros k Hk; [reflexivity|].
  destruct k as [|k].
  - cbn [PyStr.count_from Spec.occurrences].
    destruct (PyStr.starts_with (String c s) p) eqn:Hm.
    + cbn [Nat.add]. f_equal. apply IH.
      destruct p as [|a p]; [now left|].
      destruct p as [|b p]; [now left|]. right.
      rewrite starts_with_cons in Hm. apply andb_true_iff in Hm as [_ Hm].
      cbn [String.length]. split; [lia|].
      replace (S (S (String.length p)) - (S (S (String.length p)) - 1)) with 1 by lia.
      exact Hm.
    + cbn [Nat.add]. apply IH. now left.
  - destruct Hk as [Hk | [Hlt Hs]]; [discriminate Hk|].
    cbn [PyStr.count_from Spec.occurrences].
    assert (Hno : PyStr.starts_with (String c s) p = false).
    { destruct (PyStr.starts_with (String c s) p) eqn:Hm; [|reflexivity].
      pose proof (starts_with_both _ _ _ Hs Hm) as Hb.
      rewrite drop_length in Hb.
      rewrite border_free_spec in Hb; [|assumption|lia].
      symmetry. apply Hb. lia. }
    rewrite Hno. cbn [Nat.add]. apply IH.
    destruct k as [|k]; [now left|]. right. split; [lia|].
    destruct (drop_step (String.length p - S (S k)) p) as [d Hd]; [lia|].
    rewrite Hd, starts_with_cons in Hs.
    apply andb_true_iff in Hs as [_ Hs].
    replace (String.length p - S k) with (S (String.length p - S (S k))) by lia.
    exact Hs.
Qed.

(** For a border-free word, [count] is the number of positions at which the
    word occurs. *)
Lemma count_occurrences (p s : string) :
  p <> "" -> Spec.border_free p = true ->
  PyStr.count s p = Spec.occurrences p s.
Proof.
  intros Hne Hp. unfold PyStr.count.
  destruct p as [|a p]; [contradiction|].
  apply count_from_occurrences; [assumption | now left].
Qed.

Lemma lower_cons (c : ascii) (s : string) :
  PyStr.lower (String c s) = String (PyStr.lower_char c) (PyStr.lower s).
Proof. reflexivity. Qed.

(** A lowercase word starts the lowered text exactly when it starts the
    text with case ignored. *)
Lemma starts_with_lower (p : string) :
  PyStr.lower p = p ->
  forall s, PyStr.starts_with (PyStr.lower s) p = Spec.starts_with_nocase s p.
Proof.
  induction p as [|a p IH]; intros Hp s; [reflexivity|].
  rewrite lower_cons in Hp. injection Hp as Ha Hp.
  destruct s as [|b s]; [reflexivity|].
  rewrite lower_cons, starts_with_cons. cbn [Spec.starts_with_nocase].
  unfold Spec.same_letter. rewrite Ha, (IH Hp). reflexivity.
Qed.

Lemma occurrences_lower (p s : string) :
  PyStr.lower p = p ->
  Spec.occurrences p (PyStr.lower s) = Spec.occurrences_nocase p s.
Proof.
  intros Hp. induction s as [|c s IH]; [reflexivity|].
  rewrite lower_cons. cbn [Spec.occurrences Spec.occurrences_nocase].
  rewrite <- lower_cons, (starts_with_lower p Hp), IH. reflexivity.
Qed.

(** The [licenses] dict holds the counts the specification words. *)
Lemma licenses_votes (text : string) : licenses text = Spec.votes text.
Proof.
  unfold licenses, Spec.votes.
  rewrite !count_occurrences by (discriminate || reflexivity).
  rewrite !occurrences_lower by reflexivity.
  reflexivity.
Qed.

(** ** The most frequent key *)

Lemma winner_bound (d : list (string * nat)) (k : string) (v : nat) :
  Spec.winner d k v -> Forall (fun kv => snd kv <= v) d.
Proof.
  intros (before & after & -> & Hb & Ha).
  apply Forall_app. split.
  - eapply Forall_impl; [|exact Hb]. simpl. intros; lia.
  - constructor; [simpl; lia | exact Ha].
Qed.

Lemma max_from_winner (d : list (string * nat)) :
  forall best, exists v, Spec.winner (best :: d) (max_from best d) v.
Proof.
  induction d as [|kv d IH]; intros best.
  - exists (snd best), [], []. destruct best. simpl. repeat split; constructor.
  - cbn [max_from]. destruct (Nat.ltb_spec (snd best) (snd kv)) as [Hlt | Hge].
    + destruct (IH kv) as [v Hw]. exists v.
      pose proof (winner_bound _ _ _ Hw) as Hall.
      apply Forall_inv in Hall.
      destruct Hw as (before & after & Heq & Hb & Ha).
      exists (best :: before), after. rewrite Heq. repeat split.
      * constructor; [lia | exact Hb].
      * exact Ha.
    + destruct (IH best) as [v (before & after & Heq & Hb & Ha)]. exists v.
      destruct before as [|b before].
      * simpl in Heq. injection Heq as Hbest Hd. subst after.
        assert (Hv : snd best = v) by (rewrite Hbest; reflexivity).
        exists [], (kv :: d). repeat split.
        -- simpl. now rewrite <- Hbest.
        -- constructor.
        -- constructor; [lia | exact Ha].
      * simpl in Heq. injection Heq as Hbest Hd. subst b.
        exists (best :: kv :: before), after. repeat split.
        -- simpl. do 2 f_equal. exact Hd.
        -- apply Forall_inv in Hb as Hbv.
           constructor; [exact Hbv|]. constructor; [lia|].
           now apply Forall_inv_tail in Hb.
        -- exact Ha.
Qed.

Lemma dict_max_winner (d : list (string * nat)) :
  d <> [] -> exists k v, dict_max d = Ok k /\ Spec.winner d k v.
Proof.
  destruct d as [|kv d]; [contradiction|]. intros _.
  destruct (max_from_winner d kv) as [v Hw].
  exists (max_from kv d), v. split; [reflexivity | exact Hw].
Qed.

Lemma dict_sum_zero (d : list (string * nat)) :
  dict_sum d = 0 <-> Forall (fun kv => snd kv = 0) d.
Proof.
  unfold dict_sum. induction d as [|kv d IH]; simpl.
  - split; [constructor | reflexivity].
  - split.
    + intros H. constructor; [lia | apply IH; lia].
    + intros H. apply Forall_cons_iff in H as [H0 H]. apply IH in H. lia.
Qed.

(** ** Finding a file *)

Lemma potential_nil (needle : string) (files : list string) :
  potential needle files = [] <->
  (forall filename, In filename files ->
     PyStr.str_in needle (PyStr.lower filename) = false).
Proof.
  unfold potential. induction files as [|f files IH]; simpl.
  - split; [intros _ ? [] | reflexivity].
  - destruct (PyStr.str_in needle (PyStr.lower f)) eqn:Hf.
    + split; [discriminate|]. intros H. rewrite (H f) in Hf by now left.
      discriminate Hf.
    + rewrite IH. split.
      * intros H x [<- | Hx]; [exact Hf | now apply H].
      * intros H x Hx. apply H. now right.
Qed.

(** The loop reaches its [else] exactly when no listed file name matches. *)
Lemma first_match_None (needle : string)
    (walk : list (string * list string * list string)) :
  first_match needle walk = None <-> Spec.no_file_named needle walk.
Proof.
  unfold Spec.no_file_named. induction walk as [|[[root dirs] files] walk IH].
  - split; [intros _ ? ? ? ? [] | reflexivity].
  - cbn [first_match]. destruct (potential needle files) as [|f fs] eqn:Hp.
    + rewrite IH. rewrite potential_nil in Hp. split.
      * intros H r d fl x [Heq | Hin] Hx.
        -- injection Heq as <- <- <-. now apply Hp.
        -- now apply (H r d fl).
      * intros H r d fl x Hin Hx. apply (H r d fl); [now right | exact Hx].
    + split; [discriminate|]. intros H.
      assert (Hnil : potential needle files = []).
      { apply potential_nil. intros x Hx. apply (H root dirs files); [now left | exact Hx]. }
      rewrite Hnil in Hp. discriminate Hp.
Qed.

(** A found path joins a listed directory with one of its matching files. *)
Lemma first_match_Some (needle : string)
    (walk : list (string * list string * list string)) (filepath : string) :
  first_match needle walk = Some filepath ->
  exists root dirs files filename,
    In (root, dirs, files) walk /\ In filename files /\
    PyStr.str_in needle (PyStr.lower filename) = true /\
    filepath = OsPath.join root filename.
Proof.
  induction walk as [|[[root dirs] files] walk IH]; [discriminate|].
  cbn [first_match]. destruct (potential needle files) as [|f fs] eqn:Hp.
  - intros H. destruct (IH H) as (r & d & fl & x & Hin & Hx & Hm & Heq).
    exists r, d, fl, x. repeat split; try assumption. now right.
  - intros H. injection H as <-.
    assert (Hf : In f (potential needle files)) by (rewrite Hp; now left).
    unfold potential in Hf. apply filter_In in Hf as [Hin Hm].
    exists root, dirs, files, f. repeat split; try assumption. now left.
Qed.

(** ** The monad *)

Lemma bind_Ok {A B : Type} (m : M A) (k : A -> M B) (w w1 : World) (a : A) :
  m w = (Ok a, w1) -> bind m k w = k a w1.
Proof. intros H. unfold bind. now rewrite H. Qed.

Lemma bind_Raise {A B : Type} (m : M A) (k : A -> M B) (w w1 : World) (e : exn) :
  m w = (Raise e, w1) -> bind m k w = (Raise e, w1).
Proof. intros H. unfold bind. now rewrite H. Qed.

Lemma bind_Ok_inv {A B : Type} (m : M A) (k : A -> M B) (w w' : World) (b : B) :
  bind m k w = (Ok b, w') ->
  exists a w1, m w = (Ok a, w1) /\ k a w1 = (Ok b, w').
Proof.
  unfold bind. destruct (m w) as [[a | e] w1]; intros H.
  - now exists a, w1.
  - discriminate H.
Qed.

Lemma bind_Raise_inv {A B : Type} (m : M A) (k : A -> M B) (w w' : World) (e : exn) :
  bind m k w = (Raise e, w') ->
  m w = (Raise e, w') \/
  exists a w1, m w = (Ok a, w1) /\ k a w1 = (Raise e, w').
Proof.
  unfold bind. destruct (m w) as [[a | e0] w1]; intros H.
  - right. now exists a, w1.
  - left. injection H as -> ->. reflexivity.
Qed.

Lemma lift_inv {A : Type} (r : result A) (w w' : World) (x : result A) :
  lift r w = (x, w') -> r = x /\ w' = w.
Proof. unfold lift. intros H. injection H as -> ->. now split. Qed.

(** ** The license classifier *)

(** What [parse_license] does once the file is found and read, in terms of
    the counts of the specification. *)
Lemma parse_license_read (E : Env) (path : string) (w : World)
    (filepath text : string) :
  first_match "license" (os_walk E path) = Some filepath ->
  open_read E (OsPath.join path filepath) = Ok text ->
  parse_license E path w =
    if (dict_sum (Spec.votes text) =? 0)%nat
    then (Raise (license_no_keyword filepath (Spec.votes text)), w)
    else match dict_max (Spec.votes text) with
         | Ok k => (Ok (k, OsPath.basename filepath), w)
         | Raise e => (Raise e, w)
         end.
Proof.
  intros Hfind Hread. unfold parse_license. rewrite Hfind.
  unfold bind, lift. rewrite Hread, licenses_votes.
  destruct (dict_sum (Spec.votes text) =? 0)%nat; [reflexivity|].
  destruct (dict_max (Spec.votes text)); reflexivity.
Qed.

Lemma parse_license_missing (E : Env) (path : string) (w : World) :
  first_match "license" (os_walk E path) = None ->
  parse_license E path w = (Raise license_not_found, w).
Proof. intros Hfind. unfold parse_license. now rewrite Hfind. Qed.

Lemma no_keyword_lists_identifiers (filepath text id : string) :
  In id Spec.identifiers ->
  PyStr.str_in id (str_exn (license_no_keyword filepath (licenses text))) = true.
Proof.
  intros Hid. unfold license_no_keyword, str_exn.
  do 3 apply str_in_append_l.
  change (map fst (licenses text)) with Spec.identifiers.
  unfold Spec.identifiers in Hid. simpl in Hid.
  destruct Hid as [<- | [<- | [<- | [<- | []]]]]; reflexivity.
Qed.

Lemma no_keyword_not_missing (filepath : string) (d : list (string * nat)) :
  license_no_keyword filepath d <> license_not_found.
Proof.
  unfold license_no_keyword, license_not_found. intros H.
  injection H as H. simpl in H. discriminate H.
Qed.

(** C1.  When the license file is found and read and one of the keywords
    occurs in it, [parse_license] returns the identifier whose keyword
    occurs most often, and of several such identifiers the first in the
    order MIT, Apache-2.0, GPL-2.0-or-later, BSD-3-Clause.  The counts are
    the positions at which "MIT" and "GNU" occur and the positions at which
    "apache" and "bsd 3" occur with case ignored. *)
Theorem parse_license_most_frequent (E : Env) (path : string) (w : World)
    (filepath text : string) :
  first_match "license" (os_walk E path) = Some filepath ->
  open_read E (OsPath.join path filepath) = Ok text ->
  0 < dict_sum (Spec.votes text) ->
  licenses text = Spec.votes text /\
  exists k v,
    Spec.winner (Spec.votes text) k v /\
    parse_license E path w = (Ok (k, OsPath.basename filepath), w).
Proof.
  intros Hfind Hread Hsum. split; [apply licenses_votes|].
  rewrite (parse_license_read E path w filepath text Hfind Hread).
  destruct (Nat.eqb_spec (dict_sum (Spec.votes text)) 0) as [H0 | _]; [lia|].
  destruct (dict_max_winner (Spec.votes text)) as (k & v & Hmax & Hw);
    [discriminate|].
  exists k, v. rewrite Hmax. split; [exact Hw | reflexivity].
Qed.

Lemma parse_license_most_frequent_witness :
  first_match "license" (os_walk Fixture.good Fixture.tmp)
    = Some (Fixture.top ++ "/LICENSE") /\
  open_read Fixture.good
    (OsPath.join Fixture.tmp (Fixture.top ++ "/LICENSE")) = Ok "MIT License" /\
  0 < dict_sum (Spec.votes "MIT License") /\
  licenses "MIT License" = Spec.votes "MIT License" /\
  exists k v,
    Spec.winner (Spec.votes "MIT License") k v /\
    parse_license Fixture.good Fixture.tmp Fixture.w0
      = (Ok (k, OsPath.basename (Fixture.top ++ "/LICENSE")), Fixture.w0).
Proof.
  split; [reflexivity|]. split; [reflexivity|]. split; [vm_compute; lia|].
  apply (parse_license_most_frequent Fixture.good Fixture.tmp Fixture.w0
           (Fixture.top ++ "/LICENSE") "MIT License");
    [reflexivity | reflexivity | vm_compute; lia].
Defined.

Lemma parse_license_unreadable (E : Env) (path : string) (w : World)
    (filepath : string) (e : exn) :
  first_match "license" (os_walk E path) = Some filepath ->
  open_read E (OsPath.join path filepath) = Raise e ->
  parse_license E path w = (Raise e, w).
Proof.
  intros Hfind Hread. unfold parse_license. rewrite Hfind.
  unfold bind, lift. now rewrite Hread.
Qed.

Lemma no_keyword_message (filepath text : string) :
  license_no_keyword filepath (licenses text)
  = ValueError ("Could not find a license in " ++ filepath
                ++ ". Looked for: dict_keys(['MIT', 'Apache-2.0', 'GPL-2.0-or-later', 'BSD-3-Clause'])").
Proof. reflexivity. Qed.

(** C6, as stated, fails on a LICENSE that cannot be decoded: the file is
    found, and [parse_license] fails with the error of reading it, which is
    neither the "not found" error nor the "no keyword" error. *)
Lemma parse_license_third_failure :
  first_match "license" (os_walk Fixture.undecodable Fixture.tmp)
    = Some (Fixture.top ++ "/LICENSE") /\
  parse_license Fixture.undecodable Fixture.tmp Fixture.w0
    = (Raise (OtherError "UnicodeDecodeError"
                "'utf-8' codec can't decode byte 0xe9"), Fixture.w0) /\
  OtherError "UnicodeDecodeError" "'utf-8' codec can't decode byte 0xe9"
    <> ValueError "Could not find license file." /\
  forall msg,
    OtherError "UnicodeDecodeError" "'utf-8' codec can't decode byte 0xe9"
      <> ValueError msg.
Proof.
  split; [reflexivity|]. split; [reflexivity|]. split; [discriminate|].
  intros msg. discriminate.
Qed.

(** C6, as the code has it.  [parse_license] raises two errors of its own:
    the [ValueError] "Could not find license file." when no file name of
    the tree contains "license" (case ignored), and the [ValueError] "Could
    not find a license in <path>. Looked for: ..." that names the four
    identifiers when the file is found and read and all four counts are
    zero.  The two differ.  An error of opening or reading the located file
    passes through as it is.  There is no other failure, and a failing call
    leaves the process state as it is. *)
Theorem parse_license_failure_modes (E : Env) (path : string) (w : World) :
  (Spec.no_file_named "license" (os_walk E path) ->
   parse_license E path w
     = (Raise (ValueError "Could not find license file."), w)) /\
  (forall filepath text,
     first_match "license" (os_walk E path) = Some filepath ->
     open_read E (OsPath.join path filepath) = Ok text ->
     Forall (fun kv => snd kv = 0) (Spec.votes text) ->
     parse_license E path w
       = (Raise (ValueError
                   ("Could not find a license in " ++ filepath
                    ++ ". Looked for: dict_keys(['MIT', 'Apache-2.0', 'GPL-2.0-or-later', 'BSD-3-Clause'])")),
          w)) /\
  (forall filepath e,
     first_match "license" (os_walk E path) = Some filepath ->
     open_read E (OsPath.join path filepath) = Raise e ->
     parse_license E path w = (Raise e, w)) /\
  (forall e w',
     parse_license E path w = (Raise e, w') ->
     w' = w /\
     ((e = ValueError "Could not find license file." /\
       Spec.no_file_named "license" (os_walk E path)) \/
      (exists filepath text,
         first_match "license" (os_walk E path) = Some filepath /\
         open_read E (OsPath.join path filepath) = Ok text /\
         Forall (fun kv => snd kv = 0) (Spec.votes text) /\
         e = ValueError
               ("Could not find a license in " ++ filepath
                ++ ". Looked for: dict_keys(['MIT', 'Apache-2.0', 'GPL-2.0-or-later', 'BSD-3-Clause'])")) \/
      (exists filepath,
         first_match "license" (os_walk E path) = Some filepath /\
         open_read E (OsPath.join path filepath) = Raise e))) /\
  (forall filepath,
     ValueError
       ("Could not find a license in " ++ filepath
        ++ ". Looked for: dict_keys(['MIT', 'Apache-2.0', 'GPL-2.0-or-later', 'BSD-3-Clause'])")
       <> ValueError "Could not find license file." /\
     forall id, In id Spec.identifiers ->
       PyStr.str_in id
         ("Could not find a license in " ++ filepath
          ++ ". Looked for: dict_keys(['MIT', 'Apache-2.0', 'GPL-2.0-or-later', 'BSD-3-Clause'])")
         = true).
Proof.
  split; [|split; [|split; [|split]]].
  - intros Hnone. apply first_match_None in Hnone.
    now rewrite (parse_license_missing E path w Hnone).
  - intros filepath text Hfind Hread Hzero.
    rewrite (parse_license_read E path w filepath text Hfind Hread).
    apply dict_sum_zero in Hzero. rewrite Hzero.
    rewrite <- (licenses_votes text), no_keyword_message. reflexivity.
  - intros filepath e Hfind Hread.
    exact (parse_license_unreadable E path w filepath e Hfind Hread).
  - intros e w' Hrun.
    destruct (first_match "license" (os_walk E path)) as [filepath|] eqn:Hfind.
    + destruct (open_read E (OsPath.join path filepath)) as [text | x] eqn:Hread.
      * rewrite (parse_license_read E path w filepath text Hfind Hread) in Hrun.
        destruct (Nat.eqb_spec (dict_sum (Spec.votes text)) 0) as [H0 | Hne].
        -- injection Hrun as <- <-. split; [reflexivity|]. right. left.
           exists filepath, text.
           split; [reflexivity|]. split; [exact Hread|].
           split; [now apply dict_sum_zero|].
           rewrite <- (licenses_votes text). apply no_keyword_message.
        -- destruct (dict_max_winner (Spec.votes text)) as (k & v & Hmax & _);
             [discriminate|].
           rewrite Hmax in Hrun. discriminate Hrun.
      * rewrite (parse_license_unreadable E path w filepath x Hfind Hread) in Hrun.
        injection Hrun as <- <-. split; [reflexivity|]. right. right.
        now exists filepath.
    + rewrite (parse_license_missing E path w Hfind) in Hrun.
      injection Hrun as <- <-. split; [reflexivity|]. left.
      split; [reflexivity|]. now apply first_match_None.
  - intros filepath. split.
    + rewrite <- (no_keyword_message filepath "").
      apply no_keyword_not_missing.
    + intros id Hid.
      pose proof (no_keyword_lists_identifiers filepath "" id Hid) as H.
      rewrite no_keyword_message in H. exact H.
Qed.

Lemma parse_license_failure_modes_witness :
  parse_license Fixture.unlicensed Fixture.tmp Fixture.w0
    = (Raise (ValueError
                ("Could not find a license in " ++ (Fixture.top ++ "/LICENSE")
                 ++ ". Looked for: dict_keys(['MIT', 'Apache-2.0', 'GPL-2.0-or-later', 'BSD-3-Clause'])")),
       Fixture.w0) /\
  parse_license Fixture.undecodable Fixture.tmp Fixture.w0
    = (Raise (OtherError "UnicodeDecodeError"
                "'utf-8' codec can't decode byte 0xe9"), Fixture.w0).
Proof.
  split.
  - apply (proj1 (proj2 (parse_license_failure_modes
                           Fixture.unlicensed Fixture.tmp Fixture.w0))
             (Fixture.top ++ "/LICENSE") "All rights reserved.").
    + reflexivity.
    + reflexivity.
    + vm_compute. repeat constructor.
  - apply (proj1 (proj2 (proj2 (parse_license_failure_modes
                           Fixture.undecodable Fixture.tmp Fixture.w0)))
             (Fixture.top ++ "/LICENSE")); reflexivity.
Defined.

(** ** Lines *)

Lemma splitlines_from_cons (cur : string) (c : ascii) (s : string) :
  PyStr.is_linebreak c = false ->
  PyStr.splitlines_from cur (String c s)
  = PyStr.splitlines_from (cur ++ String c "") s.
Proof. intros Hc. cbn [PyStr.splitlines_from]. now rewrite Hc. Qed.

Lemma splitlines_from_LF (cur rest : string) :
  PyStr.splitlines_from cur (String PyStr.LF rest)
  = cur :: PyStr.splitlines_from "" rest.
Proof.
  cbn [PyStr.splitlines_from].
  change (PyStr.is_linebreak PyStr.LF) with true.
  change (Ascii.eqb PyStr.LF PyStr.CR) with false.
  cbn [andb]. destruct rest; reflexivity.
Qed.

(** A line and its line feed give one entry. *)
Lemma splitlines_from_line (l : string) :
  Spec.is_line l = true ->
  forall cur rest,
    PyStr.splitlines_from cur (l ++ String PyStr.LF rest)
    = (cur ++ l) :: PyStr.splitlines_from "" rest.
Proof.
  induction l as [|a l IH]; intros Hl cur rest.
  - simpl append. now rewrite splitlines_from_LF, append_empty_r.
  - cbn [Spec.is_line] in Hl. apply andb_true_iff in Hl as [Ha Hl].
    apply negb_true_iff in Ha.
    simpl append. rewrite (splitlines_from_cons _ _ _ Ha), (IH Hl).
    now rewrite append_assoc.
Qed.

(** Text after the last line feed gives an entry unless it is empty. *)
Lemma splitlines_from_last (l : string) :
  Spec.is_line l = true ->
  forall cur,
    PyStr.splitlines_from cur l
    = match cur ++ l with EmptyString => [] | last => [last] end.
Proof.
  induction l as [|a l IH]; intros Hl cur.
  - rewrite append_empty_r. destruct cur; reflexivity.
  - cbn [Spec.is_line] in Hl. apply andb_true_iff in Hl as [Ha Hl].
    apply negb_true_iff in Ha.
    rewrite (splitlines_from_cons _ _ _ Ha), (IH Hl).
    now rewrite append_assoc.
Qed.

Lemma splitlines_unlines (lines : list string) (last : string) :
  Forall (fun l => Spec.is_line l = true) lines ->
  Spec.is_line last = true ->
  PyStr.splitlines (Spec.unlines lines ++ last)
  = (lines ++ match last with EmptyString => [] | _ => [last] end)%list.
Proof.
  intros Hlines Hlast. unfold PyStr.splitlines.
  induction Hlines as [|l lines Hl _ IH].
  - simpl. rewrite (splitlines_from_last last Hlast). destruct last; reflexivity.
  - cbn [Spec.unlines]. rewrite !append_assoc.
    change (PyStr.nl ++ (Spec.unlines lines ++ last))
      with (String PyStr.LF (Spec.unlines lines ++ last)).
    rewrite (splitlines_from_line l Hl), IH. reflexivity.
Qed.

(** ** The dependency reader *)

Lemma join_empty_cons (cur : string) (rest : list string) :
  PyStr.join "" (cur :: rest) = cur ++ PyStr.join "" rest.
Proof.
  destruct rest as [|r rest]; cbn [PyStr.join].
  - now rewrite append_empty_r.
  - reflexivity.
Qed.

Lemma is_line_append (a b : string) :
  Spec.is_line a = true -> Spec.is_line b = true ->
  Spec.is_line (a ++ b) = true.
Proof.
  intros Ha Hb. induction a as [|c a IH]; [exact Hb|].
  cbn [Spec.is_line] in Ha. apply andb_true_iff in Ha as [Hc Ha].
  simpl append. cbn [Spec.is_line]. now rewrite Hc, IH.
Qed.

Lemma splitlines_from_two (cur : string) (c d : ascii) (s : string) :
  PyStr.splitlines_from cur (String c (String d s))
  = if PyStr.is_linebreak c
    then cur :: (if (Ascii.eqb c PyStr.CR && Ascii.eqb d PyStr.LF)%bool
                 then PyStr.splitlines_from "" s
                 else PyStr.splitlines_from "" (String d s))
    else PyStr.splitlines_from (cur ++ String c "") (String d s).
Proof. reflexivity. Qed.

Lemma strip_breaks_cons (c : ascii) (s : string) :
  Spec.strip_breaks (String c s)
  = if PyStr.is_linebreak c then Spec.strip_breaks s
    else String c (Spec.strip_breaks s).
Proof. reflexivity. Qed.

(** Whatever the text, the entries of [splitlines] hold no boundary, and
    put together they are the text without its boundaries. *)
Lemma splitlines_from_pieces (s : string) :
  (forall cur,
     Spec.is_line cur = true ->
     Forall (fun l => Spec.is_line l = true) (PyStr.splitlines_from cur s) /\
     PyStr.join "" (PyStr.splitlines_from cur s) = cur ++ Spec.strip_breaks s) /\
  (forall c cur,
     Spec.is_line cur = true ->
     Forall (fun l => Spec.is_line l = true)
       (PyStr.splitlines_from cur (String c s)) /\
     PyStr.join "" (PyStr.splitlines_from cur (String c s))
       = cur ++ Spec.strip_breaks (String c s)).
Proof.
  induction s as [|d s [IH1 IH2]].
  - assert (Hnil : forall cur,
               Spec.is_line cur = true ->
               Forall (fun l => Spec.is_line l = true)
                 (PyStr.splitlines_from cur "") /\
               PyStr.join "" (PyStr.splitlines_from cur "")
                 = cur ++ Spec.strip_breaks "").
    { intros cur Hcur. cbn [PyStr.splitlines_from Spec.strip_breaks].
      rewrite append_empty_r. destruct cur; [split; [constructor | reflexivity]|].
      split; [repeat constructor; exact Hcur | reflexivity]. }
    split; [exact Hnil|].
    intros c cur Hcur. cbn [PyStr.splitlines_from Spec.strip_breaks].
    destruct (PyStr.is_linebreak c) eqn:Hc.
    + split; [repeat constructor; exact Hcur|].
      cbn [PyStr.join]. now rewrite append_empty_r.
    + assert (Hcur' : Spec.is_line (cur ++ String c "") = true).
      { apply is_line_append; [exact Hcur|].
        cbn [Spec.is_line]. now rewrite Hc. }
      destruct (Hnil _ Hcur') as [Hall Hjoin]. split; [exact Hall|].
      etransitivity; [exact Hjoin|].
      cbn [Spec.strip_breaks]. now rewrite append_empty_r.
  - split; [intros cur Hcur; now apply IH2|].
    intros c cur Hcur.
    rewrite splitlines_from_two, (strip_breaks_cons c).
    destruct (PyStr.is_linebreak c) eqn:Hc.
    + destruct (Ascii.eqb c PyStr.CR && Ascii.eqb d PyStr.LF)%bool eqn:Hcrlf.
      * apply andb_true_iff in Hcrlf as [_ Hd]. apply Ascii.eqb_eq in Hd.
        subst d. rewrite strip_breaks_cons.
        change (PyStr.is_linebreak PyStr.LF) with true. cbv iota.
        destruct (IH1 "" eq_refl) as [Hall Hjoin]. split.
        -- constructor; [exact Hcur | exact Hall].
        -- rewrite join_empty_cons, Hjoin. reflexivity.
      * destruct (IH2 d "" eq_refl) as [Hall Hjoin]. split.
        -- constructor; [exact Hcur | exact Hall].
        -- rewrite join_empty_cons, Hjoin. reflexivity.
    + assert (Hcur' : Spec.is_line (cur ++ String c "") = true).
      { apply is_line_append; [exact Hcur|].
        cbn [Spec.is_line]. now rewrite Hc. }
      destruct (IH2 d _ Hcur') as [Hall Hjoin]. split; [exact Hall|].
      rewrite Hjoin, append_assoc. reflexivity.
Qed.

Lemma splitlines_pieces (text : string) :
  Forall (fun l => Spec.is_line l = true) (PyStr.splitlines text) /\
  PyStr.join "" (PyStr.splitlines text) = Spec.strip_breaks text.
Proof.
  exact (proj1 (splitlines_from_pieces text) "" eq_refl).
Qed.

(** C7, as stated, fails on a requirements file whose one line holds a
    form feed: the line gives two entries. *)
Lemma get_requirements_cuts_inside_a_line :
  open_read Fixture.formfeed (Fixture.top ++ "/requirements.txt")
    = Ok (Spec.unlines ["numpy" ++ String (ascii_of_nat 12) "scipy"]) /\
  get_requirements Fixture.formfeed Fixture.tmp Fixture.w0
    = (Ok ["numpy"; "scipy"], Fixture.w0) /\
  ["numpy"; "scipy"] <> ["numpy" ++ String (ascii_of_nat 12) "scipy"].
Proof.
  split; [reflexivity|]. split; [reflexivity|]. discriminate.
Qed.

(** C7, as the code has it.  [get_requirements] aborts with the
    [ValueError] "Could not find requirements file." when no file name of
    the tree contains "requirements" (case ignored).  Otherwise it returns
    the text of the matched file cut at every line boundary of
    [str.splitlines], the pieces in file order and as written: no entry
    holds a boundary, and the entries put together are the text without
    its boundaries.  For a file whose lines hold no boundary but the line
    feed that ends them, that is one entry a line, a blank line as the
    empty string; text after the last line feed is one more entry unless
    it is empty. *)
Theorem get_requirements_lines (E : Env) (path : string) (w : World) :
  (Spec.no_file_named "requirements" (os_walk E path) ->
   get_requirements E path w
     = (Raise (ValueError "Could not find requirements file."), w)) /\
  (forall filepath text,
     first_match "requirements" (os_walk E path) = Some filepath ->
     open_read E filepath = Ok text ->
     exists entries,
       get_requirements E path w = (Ok entries, w) /\
       entries = PyStr.splitlines text /\
       Forall (fun l => Spec.is_line l = true) entries /\
       PyStr.join "" entries = Spec.strip_breaks text) /\
  (forall filepath lines last,
     first_match "requirements" (os_walk E path) = Some filepath ->
     open_read E filepath = Ok (Spec.unlines lines ++ last) ->
     Forall (fun l => Spec.is_line l = true) lines ->
     Spec.is_line last = true ->
     get_requirements E path w
       = (Ok (lines ++ match last with EmptyString => [] | _ => [last] end)%list,
          w)).
Proof.
  split; [|split].
  - intros Hnone. apply first_match_None in Hnone.
    unfold get_requirements. now rewrite Hnone.
  - intros filepath text Hfind Hread.
    exists (PyStr.splitlines text).
    split; [|split; [reflexivity | apply splitlines_pieces]].
    unfold get_requirements. rewrite Hfind. unfold bind, lift, ret.
    now rewrite Hread.
  - intros filepath lines last Hfind Hread Hlines Hlast.
    unfold get_requirements. rewrite Hfind. unfold bind, lift, ret.
    rewrite Hread. now rewrite splitlines_unlines.
Qed.

Lemma get_requirements_lines_witness :
  get_requirements Fixture.good Fixture.tmp Fixture.w0
    = (Ok ["requests>=2.0"; ""; "pyyaml"; "numpy"], Fixture.w0) /\
  exists entries,
    get_requirements Fixture.formfeed Fixture.tmp Fixture.w0
      = (Ok entries, Fixture.w0) /\
    entries
      = PyStr.splitlines ("numpy" ++ String (ascii_of_nat 12) "scipy" ++ PyStr.nl) /\
    Forall (fun l => Spec.is_line l = true) entries /\
    PyStr.join "" entries
      = Spec.strip_breaks ("numpy" ++ String (ascii_of_nat 12) "scipy" ++ PyStr.nl).
Proof.
  split.
  - apply (proj2 (proj2 (get_requirements_lines Fixture.good Fixture.tmp Fixture.w0))
             (Fixture.top ++ "/requirements.txt")
             ["requests>=2.0"; ""; "pyyaml"] "numpy").
    + reflexivity.
    + reflexivity.
    + repeat constructor.
    + reflexivity.
  - apply (proj1 (proj2 (get_requirements_lines Fixture.formfeed Fixture.tmp
                           Fixture.w0))
             (Fixture.top ++ "/requirements.txt")); reflexivity.
Defined.

(** ** The URL validator *)

Lemma validate_urls_empty (E : Env) (url : string) (rest : list string) (w : World) :
  Spec.nonempty url = false ->
  validate_urls E (url :: rest) w = validate_urls E rest w.
Proof.
  unfold Spec.nonempty. intros H. apply negb_false_iff in H.
  cbn [validate_urls]. now rewrite H.
Qed.

Lemma validate_urls_get (E : Env) (url : string) (rest : list string) (w : World) :
  Spec.nonempty url = true ->
  validate_urls E (url :: rest) w =
    let outcome := http_get E (requests w) url in
    let w1 := add_request url outcome w in
    match outcome with
    | Raise x => (Raise x, w1)
    | Ok response =>
        if (status_code response =? 200)%Z then validate_urls E rest w1
        else (Raise (url_not_200 url (status_code response)), w1)
    end.
Proof.
  unfold Spec.nonempty. intros H. apply negb_true_iff in H.
  cbn [validate_urls]. rewrite H. unfold bind, requests_get. cbn zeta.
  destruct (http_get E (requests w) url) as [response | x]; [|reflexivity].
  destruct (status_code response =? 200)%Z; reflexivity.
Qed.

(** The error of line 184 names the URL and the status. *)
Lemma url_not_200_names (url : string) (status : Z) :
  exists msg,
    url_not_200 url status = ValueError msg /\
    msg = "URL: " ++ url ++ " returned non-200 status code: "
          ++ PyStr.str_of_int status /\
    PyStr.str_in url msg = true /\
    PyStr.str_in (PyStr.str_of_int status) msg = true.
Proof.
  eexists. split; [reflexivity|]. split; [reflexivity|]. split.
  - apply str_in_append_l, str_in_append_r, str_in_here, starts_with_refl.
  - do 3 apply str_in_append_l. apply str_in_here, starts_with_refl.
Qed.

(** C8.  [validate_urls] requests the non-empty entries of the list in
    order and nothing else; it succeeds exactly when every request answers
    200, having requested every non-empty entry; otherwise it stops at the
    first request that does not answer 200, all requests before having
    answered 200, and when there is an answer the error is the
    [ValueError] "URL: <url> returned non-200 status code: <status>", which
    names the URL and the status. *)
Theorem validate_urls_fail_fast (E : Env) (urls : list string) (w : World) :
  exists events,
    requests (snd (validate_urls E urls w)) = (requests w ++ events)%list /\
    match fst (validate_urls E urls w) with
    | Ok _ =>
        map fst events = filter Spec.nonempty urls /\
        Forall (fun ev => Spec.is_200 (snd ev) = true) events
    | Raise e =>
        exists passed url outcome rest,
          events = (passed ++ [(url, outcome)])%list /\
          filter Spec.nonempty urls = (map fst passed ++ url :: rest)%list /\
          Forall (fun ev => Spec.is_200 (snd ev) = true) passed /\
          Spec.is_200 outcome = false /\
          match outcome with
          | Ok response =>
              exists msg,
                e = ValueError msg /\
                msg = "URL: " ++ url ++ " returned non-200 status code: "
                      ++ PyStr.str_of_int (status_code response) /\
                PyStr.str_in url msg = true /\
                PyStr.str_in (PyStr.str_of_int (status_code response)) msg
                  = true
          | Raise x => e = x
          end
    end.
Proof.
  revert w. induction urls as [|url urls IH]; intros w.
  - exists []. simpl. rewrite app_nil_r. repeat split. constructor.
  - destruct (Spec.nonempty url) eqn:Hne.
    2:{ rewrite validate_urls_empty by assumption.
        cbn [filter]. rewrite Hne. apply IH. }
    rewrite validate_urls_get by assumption. cbn zeta.
    cbn [filter]. rewrite Hne.
    destruct (http_get E (requests w) url) as [response | x] eqn:Hget.
    + destruct (status_code response =? 200)%Z eqn:Hst.
      * destruct (IH (add_request url (Ok response) w)) as [events [Hreq Hres]].
        exists ((url, Ok response) :: events). split.
        { rewrite Hreq. cbn [add_request requests].
          now rewrite <- app_assoc. }
        destruct (fst (validate_urls E urls (add_request url (Ok response) w)))
          as [[] | e].
        -- destruct Hres as [Hmap Hall]. split.
           ++ cbn [map fst]. now rewrite Hmap.
           ++ constructor; [exact Hst | exact Hall].
        -- destruct Hres as (passed & u & outcome & rest & Hev & Hfil & Hall & Hno & He).
           exists ((url, Ok response) :: passed), u, outcome, rest.
           repeat split.
           ++ now rewrite Hev.
           ++ cbn [map fst app]. now rewrite Hfil.
           ++ constructor; [exact Hst | exact Hall].
           ++ exact Hno.
           ++ exact He.
      * exists [(url, Ok response)]. split; [reflexivity|].
        exists [], url, (Ok response), (filter Spec.nonempty urls).
        split; [reflexivity|]. split; [reflexivity|].
        split; [constructor|]. split; [exact Hst|].
        apply url_not_200_names.
    + exists [(url, Raise x)]. split; [reflexivity|].
      exists [], url, (Raise x), (filter Spec.nonempty urls).
      repeat split. constructor.
Qed.

Lemma validate_urls_fail_fast_witness :
  exists events,
    requests (snd (validate_urls Fixture.good
                     ["https://example.com"; ""; "https://example.com/broken";
                      "https://example.com/docs"] Fixture.w0))
      = (requests Fixture.w0 ++ events)%list /\
    map fst events = ["https://example.com"; "https://example.com/broken"] /\
    fst (validate_urls Fixture.good
           ["https://example.com"; ""; "https://example.com/broken";
            "https://example.com/docs"] Fixture.w0)
      = Raise (ValueError
                 "URL: https://example.com/broken returned non-200 status code: 503").
Proof.
  destruct (validate_urls_fail_fast Fixture.good
              ["https://example.com"; ""; "https://example.com/broken";
               "https://example.com/docs"] Fixture.w0)
    as [events [Hreq _]].
  exists events. split; [exact Hreq|].
  vm_compute in Hreq. apply (f_equal (map fst)) in Hreq. simpl in Hreq.
  split; [now rewrite <- Hreq | reflexivity].
Defined.

(** ** The build-metadata parser *)

(** The state in which the setup script is started: in its directory, with
    that directory first on [sys.path]. *)
Lemma parse_setup_py_found (E : Env) (path : string) (w : World) (filepath : string) :
  first_match "setup" (os_walk E path) = Some filepath ->
  parse_setup_py E path w =
    match chdir_error E (OsPath.dirname filepath) with
    | Some e => (Raise e, w)
    | None =>
        let w1 := set_sys_path (OsPath.dirname filepath :: sys_path w)
                    (set_cwd (OsPath.dirname filepath) w) in
        match run_setup E w1 filepath with
        | (Raise e, w2) => (Raise e, w2)
        | (Ok distribution, w2) =>
            match chdir_error E (cwd w) with
            | Some e => (Raise e, w2)
            | None => (Ok distribution, set_cwd (cwd w) w2)
            end
        end
    end.
Proof.
  intros Hfind. unfold parse_setup_py. rewrite Hfind.
  unfold bind, os_getcwd, os_chdir, sys_path_insert0, ret.
  destruct (chdir_error E (OsPath.dirname filepath)); [reflexivity|].
  cbn zeta.
  destruct (run_setup E _ filepath) as [[distribution | e] w2]; [|reflexivity].
  destruct (chdir_error E (cwd w)); reflexivity.
Qed.

Lemma parse_setup_py_missing (E : Env) (path : string) (w : World) :
  first_match "setup" (os_walk E path) = None ->
  parse_setup_py E path w = (Raise (ValueError "Could not find setup.py file."), w).
Proof. intros Hfind. unfold parse_setup_py. now rewrite Hfind. Qed.

(** A call of [parse_setup_py] that returns: what it went through. *)
Lemma parse_setup_py_Ok_inv (E : Env) (path : string) (w w' : World)
    (distribution : Distribution) :
  parse_setup_py E path w = (Ok distribution, w') ->
  exists filepath w2,
    first_match "setup" (os_walk E path) = Some filepath /\
    run_setup E
      (mkWorld (OsPath.dirname filepath)
         (OsPath.dirname filepath :: sys_path w) (warnings w) (requests w))
      filepath = (Ok distribution, w2) /\
    w' = mkWorld (cwd w) (sys_path w2) (warnings w2) (requests w2).
Proof.
  intros Hrun.
  destruct (first_match "setup" (os_walk E path)) as [filepath|] eqn:Hfind.
  - rewrite (parse_setup_py_found E path w filepath Hfind) in Hrun.
    destruct (chdir_error E (OsPath.dirname filepath)); [discriminate Hrun|].
    cbn zeta in Hrun. unfold set_sys_path, set_cwd in Hrun.
    cbn [cwd sys_path warnings requests] in Hrun.
    destruct (run_setup E _ filepath) as [[d | e] w2] eqn:Hsetup;
      [|discriminate Hrun].
    destruct (chdir_error E (cwd w)); [discriminate Hrun|].
    injection Hrun as <- <-. exists filepath, w2.
    split; [reflexivity|]. split; [exact Hsetup | reflexivity].
  - rewrite (parse_setup_py_missing E path w Hfind) in Hrun. discriminate Hrun.
Qed.

(** A call that returns has restored the working directory, whatever the
    setup script did to it. *)
Lemma parse_setup_py_returns_cwd (E : Env) (path : string) (w w' : World)
    (distribution : Distribution) :
  parse_setup_py E path w = (Ok distribution, w') -> cwd w' = cwd w.
Proof.
  intros Hrun.
  apply parse_setup_py_Ok_inv in Hrun as (filepath & w2 & _ & _ & ->).
  reflexivity.
Qed.

(** A call that raises because the setup script raises leaves the process
    where the script left it: in the directory of the script, when the
    script does not move. *)
Lemma parse_setup_py_raises_cwd (E : Env) (path : string) (w : World)
    (filepath : string) (e : exn) :
  first_match "setup" (os_walk E path) = Some filepath ->
  chdir_error E (OsPath.dirname filepath) = None ->
  (forall w1, run_setup E w1 filepath = (Raise e, w1)) ->
  fst (parse_setup_py E path w) = Raise e /\
  cwd (snd (parse_setup_py E path w)) = OsPath.dirname filepath.
Proof.
  intros Hfind Hcd Hsetup.
  rewrite (parse_setup_py_found E path w filepath Hfind), Hcd. cbn zeta.
  rewrite Hsetup. split; reflexivity.
Qed.

(** C4, on a malformed setup script.  The call raises the error of the
    script and the working directory afterwards is the directory of the
    script, not the directory the caller was in. *)
Theorem parse_setup_py_malformed_cwd :
  fst (parse_setup_py Fixture.malformed Fixture.tmp Fixture.w0)
    = Raise (OtherError "SyntaxError" "invalid syntax") /\
  cwd Fixture.w0 = "/home/user" /\
  cwd (snd (parse_setup_py Fixture.malformed Fixture.tmp Fixture.w0))
    = "/tmp/tmpk3v9x2/samplepkg-1.2.0".
Proof. repeat split. Qed.



(** ** The maintainer validator *)

Lemma validate_maintainers_cons (E : Env) (maintainer : string)
    (rest : list string) (w : World) :
  validate_maintainers E (maintainer :: rest) w =
    let u := "https://api.github.com/users/" ++ maintainer in
    let outcome := http_get E (requests w) u in
    let w1 := add_request u outcome w in
    match outcome with
    | Raise (HTTPError msg) =>
        if PyStr.str_in "404" msg
        then (Raise (maintainer_not_found maintainer), w1)
        else (Raise (HTTPError msg), w1)
    | Raise x => (Raise x, w1)
    | Ok response =>
        match raise_for_status response with
        | Raise (HTTPError msg) =>
            if PyStr.str_in "404" msg
            then (Raise (maintainer_not_found maintainer), w1)
            else (Raise (HTTPError msg), w1)
        | Raise x => (Raise x, w1)
        | Ok _ => validate_maintainers E rest w1
        end
    end.
Proof.
  cbn [validate_maintainers].
  unfold bind, except_HTTPError, requests_get, lift, raise. cbn zeta.
  destruct (http_get E (requests w) _) as [response | x].
  - destruct (raise_for_status response) as [[] | x]; [reflexivity|].
    destruct x; try reflexivity.
    cbn [str_exn]. destruct (PyStr.str_in "404" msg); reflexivity.
  - destruct x; try reflexivity.
    cbn [str_exn]. destruct (PyStr.str_in "404" msg); reflexivity.
Qed.

(** A lookup answered 404 is reported as a maintainer that does not
    exist. *)
Lemma validate_maintainers_404 (E : Env) (maintainer : string)
    (rest : list string) (w : World) (response : Response) :
  http_get E (requests w) ("https://api.github.com/users/" ++ maintainer)
    = Ok response ->
  status_code response = 404%Z ->
  fst (validate_maintainers E (maintainer :: rest) w)
    = Raise (maintainer_not_found maintainer).
Proof.
  intros Hget Hst. rewrite validate_maintainers_cons. cbn zeta.
  rewrite Hget. unfold raise_for_status. rewrite Hst. cbn [Z.leb Z.ltb andb].
  change ((400 <=? 404)%Z && (404 <? 500)%Z)%bool with true. cbv iota.
  change (PyStr.str_of_int 404) with "404".
  rewrite str_in_here; [reflexivity|]. apply starts_with_append.
Qed.

(** A lookup answered with a status outside 400..599 is accepted. *)
Lemma validate_maintainers_pass (E : Env) (maintainer : string)
    (rest : list string) (w : World) (response : Response) :
  http_get E (requests w) ("https://api.github.com/users/" ++ maintainer)
    = Ok response ->
  (status_code response < 400 \/ 600 <= status_code response)%Z ->
  validate_maintainers E (maintainer :: rest) w
    = validate_maintainers E rest
        (add_request ("https://api.github.com/users/" ++ maintainer)
           (Ok response) w).
Proof.
  intros Hget Hst. rewrite validate_maintainers_cons. cbn zeta.
  rewrite Hget. unfold raise_for_status.
  destruct (Z.leb_spec 400 (status_code response));
    destruct (Z.ltb_spec (status_code response) 500);
    destruct (Z.leb_spec 500 (status_code response));
    destruct (Z.ltb_spec (status_code response) 600);
    try lia; reflexivity.
Qed.

(** C5, on the handle "dev404" when the lookup answers 403.  The status is
    not 404, the error of [raise_for_status] is the 403 one, and yet
    [validate_maintainers] raises the "could not be found" error: the
    message of the 403 error holds the URL, and the URL holds "404". *)
Theorem validate_maintainers_403_dev404 :
  (exists response,
     http_get Fixture.limited [] "https://api.github.com/users/dev404"
       = Ok response /\
     status_code response = 403%Z /\
     raise_for_status response
       = Raise (HTTPError "403 Client Error: rate limit exceeded for url: https://api.github.com/users/dev404")) /\
  fst (validate_maintainers Fixture.limited ["dev404"] Fixture.w0)
    = Raise (ValueError "'dev404' could not be found as a GitHub user") /\
  fst (validate_maintainers Fixture.limited ["alice"] Fixture.w0)
    = Raise (HTTPError "403 Client Error: rate limit exceeded for url: https://api.github.com/users/alice").
Proof.
  split; [|split; reflexivity].
  eexists. split; [reflexivity|]. split; reflexivity.
Qed.

(** ** The steps that issue no warning *)

Create HintDb frame.

Lemma keeps_warnings_ret {A : Type} (a : A) : keeps_warnings (ret a).
Proof. intros w. reflexivity. Qed.

Lemma keeps_warnings_raise {A : Type} (e : exn) : keeps_warnings (@raise A e).
Proof. intros w. reflexivity. Qed.

Lemma keeps_warnings_lift {A : Type} (r : result A) : keeps_warnings (lift r).
Proof. intros w. reflexivity. Qed.

Lemma keeps_warnings_bind {A B : Type} (m : M A) (k : A -> M B) :
  keeps_warnings m -> (forall a, keeps_warnings (k a)) ->
  keeps_warnings (bind m k).
Proof.
  intros Hm Hk w. unfold bind. specialize (Hm w).
  destruct (m w) as [[a | e] w1]; simpl in Hm.
  - now rewrite Hk.
  - exact Hm.
Qed.

Lemma keeps_warnings_except {A : Type} (m : M A) (handler : exn -> M A) :
  keeps_warnings m -> (forall e, keeps_warnings (handler e)) ->
  keeps_warnings (except_HTTPError m handler).
Proof.
  intros Hm Hh w. unfold except_HTTPError. specialize (Hm w).
  destruct (m w) as [[a | e] w1]; simpl in Hm; [exact Hm|].
  destruct e; try exact Hm. now rewrite Hh.
Qed.

Lemma keeps_warnings_requests_get (E : Env) (u : string) :
  keeps_warnings (requests_get E u).
Proof. intros w. reflexivity. Qed.

Lemma keeps_warnings_os_getcwd : keeps_warnings os_getcwd.
Proof. intros w. reflexivity. Qed.

Lemma keeps_warnings_os_chdir (E : Env) (d : string) : keeps_warnings (os_chdir E d).
Proof. intros w. unfold os_chdir. destruct (chdir_error E d); reflexivity. Qed.

Lemma keeps_warnings_sys_path_insert0 (d : string) :
  keeps_warnings (sys_path_insert0 d).
Proof. intros w. reflexivity. Qed.

#[local] Hint Resolve keeps_warnings_ret keeps_warnings_raise keeps_warnings_lift
  keeps_warnings_requests_get keeps_warnings_os_getcwd keeps_warnings_os_chdir
  keeps_warnings_sys_path_insert0 : frame.

Ltac frame :=
  repeat first
    [ apply keeps_warnings_bind; [|intros ?]
    | apply keeps_warnings_except; [|intros ?]
    | solve [auto with frame]
    | match goal with
      | |- keeps_warnings (match ?x with _ => _ end) => destruct x
      | |- keeps_warnings (if ?b then _ else _) => destruct b
      end ].

Lemma keeps_warnings_get_latest_release (E : Env) (username repo : string) :
  keeps_warnings (get_latest_release E username repo).
Proof. unfold get_latest_release. frame. Qed.

Lemma keeps_warnings_download_tar_gz (E : Env) (username repo tag_name : string) :
  keeps_warnings (download_tar_gz E username repo tag_name).
Proof. unfold download_tar_gz. frame. Qed.

Lemma keeps_warnings_extract_tar_gz (E : Env) (response : Response) :
  keeps_warnings (extract_tar_gz E response).
Proof. unfold extract_tar_gz. frame. Qed.

Lemma keeps_warnings_parse_license (E : Env) (path : string) :
  keeps_warnings (parse_license E path).
Proof. unfold parse_license. frame. Qed.

Lemma keeps_warnings_get_requirements (E : Env) (path : string) :
  keeps_warnings (get_requirements E path).
Proof. unfold get_requirements. frame. Qed.

Lemma keeps_warnings_validate_maintainers (E : Env) (maintainers : list string) :
  keeps_warnings (validate_maintainers E maintainers).
Proof.
  induction maintainers as [|maintainer rest IH]; cbn [validate_maintainers].
  - frame.
  - apply keeps_warnings_bind; [frame | intros _; exact IH].
Qed.

Lemma keeps_warnings_validate_urls (E : Env) (urls : list string) :
  keeps_warnings (validate_urls E urls).
Proof.
  induction urls as [|url rest IH]; cbn [validate_urls].
  - frame.
  - destruct (String.length url =? 0)%nat; [exact IH|].
    apply keeps_warnings_bind; [frame | intros response].
    destruct (negb (status_code response =? 200)%Z); [frame | exact IH].
Qed.

Lemma keeps_warnings_run {A : Type} (m : M A) (w w' : World) (r : result A) :
  keeps_warnings m -> m w = (r, w') -> warnings w' = warnings w.
Proof. intros Hm Hrun. specialize (Hm w). now rewrite Hrun in Hm. Qed.

(** ** The pipeline *)

(** A run of [make_meta] that returns went through every stage. *)
Lemma make_meta_Ok_inv (E : Env) (username repo : string)
    (maintainers : list string) (documentation_url : string)
    (w w' : World) (preamble : string) (meta : Yaml) :
  make_meta E username repo maintainers documentation_url w
    = (Ok (preamble, meta), w') ->
  exists tag_name w1 response w2 tmp w3 license_id license_file w4
         requirements w5 distribution w6 w7 w8,
    get_latest_release E username repo w = (Ok tag_name, w1) /\
    download_tar_gz E username repo tag_name w1 = (Ok response, w2) /\
    extract_tar_gz E response w2 = (Ok tmp, w3) /\
    parse_license E tmp w3 = (Ok (license_id, license_file), w4) /\
    get_requirements E tmp w4 = (Ok requirements, w5) /\
    parse_setup_py E tmp w5 = (Ok distribution, w6) /\
    validate_maintainers E maintainers w6 = (Ok tt, w7) /\
    validate_urls E ["https://github.com/" ++ username ++ "/" ++ repo;
                     get_url distribution; documentation_url] w7 = (Ok tt, w8) /\
    ((PyStr.str_in (get_version distribution) tag_name = true /\ w' = w8) \/
     (PyStr.str_in (get_version distribution) tag_name = false /\
      warn_filter E w8 (version_warning (get_version distribution) tag_name)
        = Shown /\
      w' = add_warning
             (version_warning (get_version distribution) tag_name) w8) \/
     (PyStr.str_in (get_version distribution) tag_name = false /\
      warn_filter E w8 (version_warning (get_version distribution) tag_name)
        = Ignored /\
      w' = w8)) /\
    preamble = preamble_of (get_name distribution) (get_version distribution) /\
    yget ["requirements"; "host"] meta
      = Some (YSeq (map YStr ("python" :: "pip" :: requirements))) /\
    yget ["requirements"; "run"] meta
      = Some (YSeq (map YStr ("python" :: requirements))).
Proof.
  unfold make_meta. cbn zeta. intros H.
  apply bind_Ok_inv in H as (tag_name & w1 & H1 & H).
  apply bind_Ok_inv in H as (response & w2 & H2 & H).
  apply bind_Ok_inv in H as (tmp & w3 & H3 & H).
  apply bind_Ok_inv in H as ([license_id license_file] & w4 & H4 & H).
  apply bind_Ok_inv in H as (requirements & w5 & H5 & H).
  apply bind_Ok_inv in H as (distribution & w6 & H6 & H).
  apply bind_Ok_inv in H as ([] & w7 & H7 & H).
  apply bind_Ok_inv in H as ([] & w8 & H8 & H).
  apply bind_Ok_inv in H as ([] & w9 & H9 & H).
  unfold ret in H. injection H as <- <- <-.
  exists tag_name, w1, response, w2, tmp, w3, license_id, license_file, w4,
         requirements, w5, distribution, w6, w7, w8.
  repeat (split; [assumption|]).
  split; [|repeat split].
  destruct (PyStr.str_in (get_version distribution) tag_name);
    cbn [negb] in H9; unfold warnings_warn, ret in H9.
  - left. injection H9 as <-. now split.
  - right.
    destruct (warn_filter E w8
                (version_warning (get_version distribution) tag_name));
      [left | right | discriminate H9]; injection H9 as <-; repeat split.
Qed.

Lemma preamble_of_preamble (distribution : Distribution) :
  preamble_of (get_name distribution) (get_version distribution)
  = Run.preamble distribution.
Proof.
  unfold preamble_of, Run.preamble. cbn [PyStr.join].
  rewrite !append_assoc. reflexivity.
Qed.

(** A run whose stages and validators succeed: its outcome is decided by
    the version check alone, and the manifest, if any, is the one of the
    stage results. *)
Lemma make_meta_yaml_run (E : Env) (username repo : string)
    (maintainers : list string) (documentation_url : string) (w : World)
    (tag_name : string) (w1 : World) (response : Response) (w2 : World)
    (tmp : string) (w3 : World) (license : string * string) (w4 : World)
    (requirements : list string) (w5 : World) (distribution : Distribution)
    (w6 w7 w8 : World) :
  Run.stages E username repo maintainers documentation_url w tag_name w1
    response w2 tmp w3 license w4 requirements w5 distribution w6 w7 w8 ->
  make_meta_yaml E username repo maintainers documentation_url w
  = if PyStr.str_in (get_version distribution) tag_name
    then (Ok (Run.manifest E (Run.preamble distribution)
                (Run.document username repo tag_name
                   (sha256_hexdigest E (content response)) license
                   requirements distribution documentation_url maintainers)),
          w8)
    else match warn_filter E w8 (Run.mismatch_message distribution tag_name) with
         | Shown =>
             (Ok (Run.manifest E (Run.preamble distribution)
                    (Run.document username repo tag_name
                       (sha256_hexdigest E (content response)) license
                       requirements distribution documentation_url
                       maintainers)),
              add_warning (Run.mismatch_message distribution tag_name) w8)
         | Ignored =>
             (Ok (Run.manifest E (Run.preamble distribution)
                    (Run.document username repo tag_name
                       (sha256_hexdigest E (content response)) license
                       requirements distribution documentation_url
                       maintainers)),
              w8)
         | Raised =>
             (Raise (OtherError "UserWarning"
                       (Run.mismatch_message distribution tag_name)), w8)
         end.
Proof.
  unfold Run.stages, Run.github_url.
  intros (H1 & H2 & H3 & H4 & H5 & H6 & H7 & H8).
  destruct license as [license_id license_file].
  unfold make_meta_yaml, make_meta. cbn zeta. unfold bind at 1.
  rewrite (bind_Ok _ _ _ _ _ H1); cbn beta.
  rewrite (bind_Ok _ _ _ _ _ H2); cbn beta.
  rewrite (bind_Ok _ _ _ _ _ H3); cbn beta.
  rewrite (bind_Ok _ _ _ _ _ H4); cbn beta iota.
  rewrite (bind_Ok _ _ _ _ _ H5); cbn beta.
  rewrite (bind_Ok _ _ _ _ _ H6); cbn beta.
  rewrite (bind_Ok _ _ _ _ _ H7); cbn beta.
  rewrite (bind_Ok _ _ _ _ _ H8); cbn beta.
  rewrite preamble_of_preamble.
  change (version_warning (get_version distribution) tag_name)
    with (Run.mismatch_message distribution tag_name).
  destruct (PyStr.str_in (get_version distribution) tag_name);
    cbn [negb]; unfold bind, warnings_warn, ret; [reflexivity|].
  destruct (warn_filter E w8 (Run.mismatch_message distribution tag_name));
    reflexivity.
Qed.

Lemma make_meta_yaml_of_meta (E : Env) (username repo : string)
    (maintainers : list string) (documentation_url : string) (w w' : World)
    (preamble : string) (meta : Yaml) :
  make_meta E username repo maintainers documentation_url w
    = (Ok (preamble, meta), w') ->
  make_meta_yaml E username repo maintainers documentation_url w
    = (Ok (preamble ++ PyStr.nl ++ PyStr.nl ++ yaml_dump E meta), w').
Proof.
  intros H. unfold make_meta_yaml. rewrite (bind_Ok _ _ _ _ _ H). reflexivity.
Qed.

Lemma make_meta_yaml_Ok_inv (E : Env) (username repo : string)
    (maintainers : list string) (documentation_url : string) (w w' : World)
    (manifest : string) :
  make_meta_yaml E username repo maintainers documentation_url w
    = (Ok manifest, w') ->
  exists preamble meta,
    make_meta E username repo maintainers documentation_url w
      = (Ok (preamble, meta), w') /\
    manifest = preamble ++ PyStr.nl ++ PyStr.nl ++ yaml_dump E meta.
Proof.
  unfold make_meta_yaml. intros H.
  apply bind_Ok_inv in H as ([preamble meta] & w1 & H1 & H).
  unfold ret in H. injection H as <- <-. now exists preamble, meta.
Qed.

Lemma make_meta_yaml_Raise (E : Env) (username repo : string)
    (maintainers : list string) (documentation_url : string) (w w' : World)
    (e : exn) :
  make_meta E username repo maintainers documentation_url w = (Raise e, w') ->
  make_meta_yaml E username repo maintainers documentation_url w = (Raise e, w').
Proof.
  intros H. unfold make_meta_yaml. now rewrite (bind_Raise _ _ _ _ _ H).
Qed.

(** C2.  A run of [make_meta_yaml] that returns a manifest has gone
    through every step, each started in the state the one before left:
    the release lookup, the download, the extraction, then license
    classification, dependency reading and build-metadata extraction on
    the extracted tree, then the two validators; and its manifest is the
    one of these results.  Whichever step raises first, its error is the
    outcome of the run, in the state that step left, and no manifest is
    returned; so it is with a version warning that the filters raise. *)
Theorem make_meta_yaml_all_or_nothing (E : Env) (username repo : string)
    (maintainers : list string) (documentation_url : string) (w : World) :
  (forall manifest w',
     make_meta_yaml E username repo maintainers documentation_url w
       = (Ok manifest, w') ->
     exists tag_name w1 response w2 tmp w3 license w4 requirements w5
            distribution w6 w7 w8,
       Run.stages E username repo maintainers documentation_url w tag_name w1
         response w2 tmp w3 license w4 requirements w5 distribution w6 w7 w8 /\
       manifest
         = Run.manifest E (Run.preamble distribution)
             (Run.document username repo tag_name
                (sha256_hexdigest E (content response)) license requirements
                distribution documentation_url maintainers)) /\
  Run.aborts_with
    (make_meta_yaml E username repo maintainers documentation_url w)
    (get_latest_release E username repo w) /\
  (forall tag_name w1,
     get_latest_release E username repo w = (Ok tag_name, w1) ->
     Run.aborts_with
       (make_meta_yaml E username repo maintainers documentation_url w)
       (download_tar_gz E username repo tag_name w1) /\
     forall response w2,
       download_tar_gz E username repo tag_name w1 = (Ok response, w2) ->
       Run.aborts_with
         (make_meta_yaml E username repo maintainers documentation_url w)
         (extract_tar_gz E response w2) /\
       forall tmp w3,
         extract_tar_gz E response w2 = (Ok tmp, w3) ->
         Run.aborts_with
           (make_meta_yaml E username repo maintainers documentation_url w)
           (parse_license E tmp w3) /\
         forall license w4,
           parse_license E tmp w3 = (Ok license, w4) ->
           Run.aborts_with
             (make_meta_yaml E username repo maintainers documentation_url w)
             (get_requirements E tmp w4) /\
           forall requirements w5,
             get_requirements E tmp w4 = (Ok requirements, w5) ->
             Run.aborts_with
               (make_meta_yaml E username repo maintainers documentation_url w)
               (parse_setup_py E tmp w5) /\
             forall distribution w6,
               parse_setup_py E tmp w5 = (Ok distribution, w6) ->
               Run.aborts_with
                 (make_meta_yaml E username repo maintainers
                    documentation_url w)
                 (validate_maintainers E maintainers w6) /\
               forall w7,
                 validate_maintainers E maintainers w6 = (Ok tt, w7) ->
                 Run.aborts_with
                   (make_meta_yaml E username repo maintainers
                      documentation_url w)
                   (validate_urls E
                      [Run.github_url username repo; get_url distribution;
                       documentation_url] w7) /\
                 forall w8,
                   validate_urls E
                     [Run.github_url username repo; get_url distribution;
                      documentation_url] w7 = (Ok tt, w8) ->
                   PyStr.str_in (get_version distribution) tag_name = false ->
                   Run.aborts_with
                     (make_meta_yaml E username repo maintainers
                        documentation_url w)
                     (warnings_warn E
                        (Run.mismatch_message distribution tag_name) w8)).
Proof.
  split; [|split].
  - intros manifest w' Hrun.
    pose proof Hrun as Hinv.
    apply make_meta_yaml_Ok_inv in Hinv as (preamble & meta & Hinv & _).
    apply make_meta_Ok_inv in Hinv
      as (tag_name & w1 & response & w2 & tmp & w3 & license_id & license_file
          & w4 & requirements & w5 & distribution & w6 & w7 & w8
          & H1 & H2 & H3 & H4 & H5 & H6 & H7 & H8 & _).
    assert (Hst : Run.stages E username repo maintainers documentation_url w
                    tag_name w1 response w2 tmp w3 (license_id, license_file)
                    w4 requirements w5 distribution w6 w7 w8).
    { unfold Run.stages. repeat (split; [assumption|]). exact H8. }
    exists tag_name, w1, response, w2, tmp, w3, (license_id, license_file), w4,
           requirements, w5, distribution, w6, w7, w8.
    split; [exact Hst|].
    rewrite (make_meta_yaml_run _ _ _ _ _ _ _ _ _ _ _ _ _ _ _ _ _ _ _ _ Hst)
      in Hrun.
    destruct (PyStr.str_in (get_version distribution) tag_name).
    + now injection Hrun as <- _.
    + destruct (warn_filter E w8 _); try discriminate Hrun;
        now injection Hrun as <- _.
  - intros e w' H. apply make_meta_yaml_Raise. unfold make_meta. cbn zeta.
    now rewrite (bind_Raise _ _ _ _ _ H).
  - unfold Run.aborts_with, Run.github_url.
    intros tag_name w1 H1. split.
    { intros e w' H. apply make_meta_yaml_Raise. unfold make_meta. cbn zeta.
      rewrite (bind_Ok _ _ _ _ _ H1); cbn beta.
      now rewrite (bind_Raise _ _ _ _ _ H). }
    intros response w2 H2. split.
    { intros e w' H. apply make_meta_yaml_Raise. unfold make_meta. cbn zeta.
      rewrite (bind_Ok _ _ _ _ _ H1); cbn beta.
      rewrite (bind_Ok _ _ _ _ _ H2); cbn beta.
      now rewrite (bind_Raise _ _ _ _ _ H). }
    intros tmp w3 H3. split.
    { intros e w' H. apply make_meta_yaml_Raise. unfold make_meta. cbn zeta.
      rewrite (bind_Ok _ _ _ _ _ H1); cbn beta.
      rewrite (bind_Ok _ _ _ _ _ H2); cbn beta.
      rewrite (bind_Ok _ _ _ _ _ H3); cbn beta.
      now rewrite (bind_Raise _ _ _ _ _ H). }
    intros [license_id license_file] w4 H4. split.
    { intros e w' H. apply make_meta_yaml_Raise. unfold make_meta. cbn zeta.
      rewrite (bind_Ok _ _ _ _ _ H1); cbn beta.
      rewrite (bind_Ok _ _ _ _ _ H2); cbn beta.
      rewrite (bind_Ok _ _ _ _ _ H3); cbn beta.
      rewrite (bind_Ok _ _ _ _ _ H4); cbn beta iota.
      now rewrite (bind_Raise _ _ _ _ _ H). }
    intros requirements w5 H5. split.
    { intros e w' H. apply make_meta_yaml_Raise. unfold make_meta. cbn zeta.
      rewrite (bind_Ok _ _ _ _ _ H1); cbn beta.
      rewrite (bind_Ok _ _ _ _ _ H2); cbn beta.
      rewrite (bind_Ok _ _ _ _ _ H3); cbn beta.
      rewrite (bind_Ok _ _ _ _ _ H4); cbn beta iota.
      rewrite (bind_Ok _ _ _ _ _ H5); cbn beta.
      now rewrite (bind_Raise _ _ _ _ _ H). }
    intros distribution w6 H6. split.
    { intros e w' H. apply make_meta_yaml_Raise. unfold make_meta. cbn zeta.
      rewrite (bind_Ok _ _ _ _ _ H1); cbn beta.
      rewrite (bind_Ok _ _ _ _ _ H2); cbn beta.
      rewrite (bind_Ok _ _ _ _ _ H3); cbn beta.
      rewrite (bind_Ok _ _ _ _ _ H4); cbn beta iota.
      rewrite (bind_Ok _ _ _ _ _ H5); cbn beta.
      rewrite (bind_Ok _ _ _ _ _ H6); cbn beta.
      now rewrite (bind_Raise _ _ _ _ _ H). }
    intros w7 H7. split.
    { intros e w' H. apply make_meta_yaml_Raise. unfold make_meta. cbn zeta.
      rewrite (bind_Ok _ _ _ _ _ H1); cbn beta.
      rewrite (bind_Ok _ _ _ _ _ H2); cbn beta.
      rewrite (bind_Ok _ _ _ _ _ H3); cbn beta.
      rewrite (bind_Ok _ _ _ _ _ H4); cbn beta iota.
      rewrite (bind_Ok _ _ _ _ _ H5); cbn beta.
      rewrite (bind_Ok _ _ _ _ _ H6); cbn beta.
      rewrite (bind_Ok _ _ _ _ _ H7); cbn beta.
      now rewrite (bind_Raise _ _ _ _ _ H). }
    intros w8 H8 Hin e w' H. apply make_meta_yaml_Raise.
    unfold make_meta. cbn zeta.
    rewrite (bind_Ok _ _ _ _ _ H1); cbn beta.
    rewrite (bind_Ok _ _ _ _ _ H2); cbn beta.
    rewrite (bind_Ok _ _ _ _ _ H3); cbn beta.
    rewrite (bind_Ok _ _ _ _ _ H4); cbn beta iota.
    rewrite (bind_Ok _ _ _ _ _ H5); cbn beta.
    rewrite (bind_Ok _ _ _ _ _ H6); cbn beta.
    rewrite (bind_Ok _ _ _ _ _ H7); cbn beta.
    rewrite (bind_Ok _ _ _ _ _ H8); cbn beta.
    rewrite Hin. cbn [negb].
    change (version_warning (get_version distribution) tag_name)
      with (Run.mismatch_message distribution tag_name).
    now rewrite (bind_Raise _ _ _ _ _ H).
Qed.

Lemma make_meta_yaml_all_or_nothing_witness :
  (exists w',
     parse_setup_py Fixture.malformed Fixture.tmp
       (snd (download_tar_gz Fixture.malformed "octo" "samplepkg" "v1.2.0"
               (snd (get_latest_release Fixture.malformed "octo" "samplepkg"
                       Fixture.w0))))
       = (Raise (OtherError "SyntaxError" "invalid syntax"), w') /\
     make_meta_yaml Fixture.malformed "octo" "samplepkg" ["alice"] "" Fixture.w0
       = (Raise (OtherError "SyntaxError" "invalid syntax"), w')) /\
  (exists w',
     validate_maintainers Fixture.nobody ["alice"]
       (snd (parse_setup_py Fixture.nobody Fixture.tmp
               (snd (download_tar_gz Fixture.nobody "octo" "samplepkg" "v1.2.0"
                       (snd (get_latest_release Fixture.nobody "octo"
                               "samplepkg" Fixture.w0))))))
       = (Raise (maintainer_not_found "alice"), w') /\
     make_meta_yaml Fixture.nobody "octo" "samplepkg" ["alice"] "" Fixture.w0
       = (Raise (maintainer_not_found "alice"), w')).
Proof.
  split.
  - destruct (make_meta_yaml_all_or_nothing Fixture.malformed "octo"
                "samplepkg" ["alice"] "" Fixture.w0) as (_ & _ & T).
    destruct (T "v1.2.0" _ eq_refl) as [_ T2].
    destruct (T2 _ _ eq_refl) as [_ T3].
    destruct (T3 Fixture.tmp _ eq_refl) as [_ T4].
    destruct (T4 ("MIT", "LICENSE") _ eq_refl) as [_ T5].
    destruct (T5 _ _ eq_refl) as [T6 _].
    eexists. split; [reflexivity|]. apply T6. reflexivity.
  - destruct (make_meta_yaml_all_or_nothing Fixture.nobody "octo"
                "samplepkg" ["alice"] "" Fixture.w0) as (_ & _ & T).
    destruct (T "v1.2.0" _ eq_refl) as [_ T2].
    destruct (T2 _ _ eq_refl) as [_ T3].
    destruct (T3 Fixture.tmp _ eq_refl) as [_ T4].
    destruct (T4 ("MIT", "LICENSE") _ eq_refl) as [_ T5].
    destruct (T5 _ _ eq_refl) as [_ T6].
    destruct (T6 _ _ eq_refl) as [T7 _].
    eexists. split; [reflexivity|]. apply T7. reflexivity.
Defined.

(** C3, as the code has it.  In every manifest the host list is "python",
    "pip" and then the requirements as read, in order, and the run list is
    "python" and then the same requirements; the manifest is the preamble,
    a blank line and the dump of that document. *)
Theorem make_meta_requirement_lists (E : Env) (username repo : string)
    (maintainers : list string) (documentation_url : string) (w w' : World)
    (manifest : string) :
  make_meta_yaml E username repo maintainers documentation_url w
    = (Ok manifest, w') ->
  exists preamble meta tmp w4 requirements w5,
    make_meta E username repo maintainers documentation_url w
      = (Ok (preamble, meta), w') /\
    manifest = preamble ++ PyStr.nl ++ PyStr.nl ++ yaml_dump E meta /\
    get_requirements E tmp w4 = (Ok requirements, w5) /\
    yget ["requirements"; "host"] meta
      = Some (YSeq (map YStr ("python" :: "pip" :: requirements))) /\
    yget ["requirements"; "run"] meta
      = Some (YSeq (map YStr ("python" :: requirements))).
Proof.
  intros Hrun.
  apply make_meta_yaml_Ok_inv in Hrun as (preamble & meta & Hrun & Hmanifest).
  pose proof (make_meta_Ok_inv _ _ _ _ _ _ _ _ _ Hrun)
    as (tag_name & w1 & response & w2 & tmp & w3 & license_id & license_file
        & w4 & requirements & w5 & distribution & w6 & w7 & w8
        & _ & _ & _ & _ & H5 & _ & _ & _ & _ & _ & Hhost & Hrunlist).
  exists preamble, meta, tmp, w4, requirements, w5.
  repeat split; assumption.
Qed.

Lemma make_meta_requirement_lists_witness :
  exists manifest w' meta,
    make_meta_yaml Fixture.good "octo" "samplepkg" ["alice"] "" Fixture.w0
      = (Ok manifest, w') /\
    yget ["requirements"; "host"] meta
      = Some (YSeq (map YStr ["python"; "pip"; "requests>=2.0"; ""; "pyyaml"; "numpy"])) /\
    manifest = preamble_of "samplepkg" "1.2.0" ++ PyStr.nl ++ PyStr.nl
               ++ yaml_dump Fixture.good meta.
Proof.
  destruct (make_meta_yaml Fixture.good "octo" "samplepkg" ["alice"] ""
              Fixture.w0) as [[manifest | e] w'] eqn:Hrun;
    [|vm_compute in Hrun; discriminate Hrun].
  destruct (make_meta_requirement_lists Fixture.good "octo" "samplepkg"
              ["alice"] "" Fixture.w0 w' manifest Hrun)
    as (preamble & meta & tmp & w4 & requirements & w5
        & Hmeta & Hmanifest & _ & Hhost & _).
  exists manifest, w', meta. split; [reflexivity|].
  vm_compute in Hmeta. injection Hmeta as <- <- <-.
  split; [reflexivity | exact Hmanifest].
Defined.

(** C3, as stated, fails on the fixture: the run list is "python" followed
    by the requirements, and "pip" is not in it. *)
Lemma run_list_without_pip :
  exists preamble meta w' items,
    make_meta Fixture.good "octo" "samplepkg" ["alice"] "" Fixture.w0
      = (Ok (preamble, meta), w') /\
    yget ["requirements"; "run"] meta = Some (YSeq items) /\
    items = map YStr ["python"; "requests>=2.0"; ""; "pyyaml"; "numpy"] /\
    ~ In (YStr "pip") items.
Proof.
  do 4 eexists. split; [vm_compute; reflexivity|].
  split; [reflexivity|]. split; [reflexivity|].
  simpl. intros H.
  repeat (destruct H as [H | H]; [discriminate H|]). exact H.
Qed.

(** C9, as stated, fails in two ways on a setup script whose version 1.1.0
    is not part of the tag v1.2.0.  When the warning filters turn warnings
    into errors, the run aborts with the warning and renders nothing.  Under
    the default filters, in a process that has already shown this warning,
    the run renders the manifest and no warning is emitted. *)
Lemma version_mismatch_not_always_a_warning :
  PyStr.str_in "1.1.0" "v1.2.0" = false /\
  (exists w',
     make_meta_yaml Fixture.strict "octo" "samplepkg" ["alice"] "" Fixture.w0
       = (Raise (OtherError "UserWarning"
                   "Version '1.1.0' in setup.py may not correspond to release tag name: 'v1.2.0'"),
          w')) /\
  (exists manifest w',
     make_meta_yaml Fixture.stale "octo" "samplepkg" ["alice"] ""
       Fixture.w_warned = (Ok manifest, w') /\
     warnings w' = warnings Fixture.w_warned).
Proof.
  split; [reflexivity|]. split.
  - eexists. vm_compute. reflexivity.
  - do 2 eexists. split; [vm_compute; reflexivity | reflexivity].
Qed.

(** C9, as the code has it.  When the stages and the validators have
    succeeded, the version check decides the rest.  A version that is part
    of the tag: no warning is issued and the manifest is rendered.  A
    version that is not part of the tag: [warnings.warn] is called with the
    mismatch message, and the warning filters decide; when they show the
    warning it is issued and the manifest is rendered all the same; when
    they drop it the manifest is rendered without a warning; when they
    raise it the run aborts with it.  The manifest is in every case the
    one of the stage results, and the version check changes nothing else
    in the state the validators left. *)
Theorem version_mismatch_only_warns (E : Env) (username repo : string)
    (maintainers : list string) (documentation_url : string) (w : World)
    (tag_name : string) (w1 : World) (response : Response) (w2 : World)
    (tmp : string) (w3 : World) (license : string * string) (w4 : World)
    (requirements : list string) (w5 : World) (distribution : Distribution)
    (w6 w7 w8 : World) :
  Run.stages E username repo maintainers documentation_url w tag_name w1
    response w2 tmp w3 license w4 requirements w5 distribution w6 w7 w8 ->
  (PyStr.str_in (get_version distribution) tag_name = true ->
   make_meta_yaml E username repo maintainers documentation_url w
     = (Ok (Run.manifest E (Run.preamble distribution)
              (Run.document username repo tag_name
                 (sha256_hexdigest E (content response)) license requirements
                 distribution documentation_url maintainers)),
        w8)) /\
  (PyStr.str_in (get_version distribution) tag_name = false ->
   (warn_filter E w8 (Run.mismatch_message distribution tag_name) = Shown ->
    make_meta_yaml E username repo maintainers documentation_url w
      = (Ok (Run.manifest E (Run.preamble distribution)
               (Run.document username repo tag_name
                  (sha256_hexdigest E (content response)) license requirements
                  distribution documentation_url maintainers)),
         mkWorld (cwd w8) (sys_path w8)
           (warnings w8 ++ [Run.mismatch_message distribution tag_name])%list
           (requests w8))) /\
   (warn_filter E w8 (Run.mismatch_message distribution tag_name) = Ignored ->
    make_meta_yaml E username repo maintainers documentation_url w
      = (Ok (Run.manifest E (Run.preamble distribution)
               (Run.document username repo tag_name
                  (sha256_hexdigest E (content response)) license requirements
                  distribution documentation_url maintainers)),
         w8)) /\
   (warn_filter E w8 (Run.mismatch_message distribution tag_name) = Raised ->
    make_meta_yaml E username repo maintainers documentation_url w
      = (Raise (OtherError "UserWarning"
                  (Run.mismatch_message distribution tag_name)), w8))).
Proof.
  intros Hst.
  rewrite (make_meta_yaml_run _ _ _ _ _ _ _ _ _ _ _ _ _ _ _ _ _ _ _ _ Hst).
  split.
  - intros Hin. now rewrite Hin.
  - intros Hin. rewrite Hin.
    repeat split; intros Hf; rewrite Hf; reflexivity.
Qed.

Lemma version_mismatch_only_warns_witness :
  exists w8,
    validate_urls Fixture.stale
      [Run.github_url "octo" "samplepkg"; "https://example.com"; ""]
      (snd (validate_maintainers Fixture.stale ["alice"]
              (snd (parse_setup_py Fixture.stale Fixture.tmp
                      (snd (download_tar_gz Fixture.stale "octo" "samplepkg"
                              "v1.2.0"
                              (snd (get_latest_release Fixture.stale "octo"
                                      "samplepkg" Fixture.w0))))))))
      = (Ok tt, w8) /\
    PyStr.str_in "1.1.0" "v1.2.0" = false /\
    warn_filter Fixture.stale w8
      (Run.mismatch_message (Fixture.dist "1.1.0") "v1.2.0") = Shown /\
    make_meta_yaml Fixture.stale "octo" "samplepkg" ["alice"] "" Fixture.w0
      = (Ok (Run.manifest Fixture.stale (Run.preamble (Fixture.dist "1.1.0"))
               (Run.document "octo" "samplepkg" "v1.2.0" "0f3a"
                  ("MIT", "LICENSE") ["requests>=2.0"; ""; "pyyaml"; "numpy"]
                  (Fixture.dist "1.1.0") "" ["alice"])),
         mkWorld (cwd w8) (sys_path w8)
           (warnings w8
            ++ ["Version '1.1.0' in setup.py may not correspond to release tag name: 'v1.2.0'"])%list
           (requests w8)).
Proof.
  eassert (Hst : Run.stages Fixture.stale "octo" "samplepkg" ["alice"] ""
                   Fixture.w0 "v1.2.0" _ _ _ Fixture.tmp _ ("MIT", "LICENSE")
                   _ _ _ (Fixture.dist "1.1.0") _ _ _).
  { unfold Run.stages.
    repeat (split; [vm_compute; reflexivity|]). vm_compute. reflexivity. }
  destruct (version_mismatch_only_warns _ _ _ _ _ _ _ _ _ _ _ _ _ _ _ _ _ _ _ _
              Hst) as [_ T].
  destruct (T eq_refl) as [T1 _].
  eexists. split; [vm_compute; reflexivity|].
  split; [reflexivity|]. split; [reflexivity|].
  exact (T1 eq_refl).
Defined.

(** * The rest of the script *)

(** ** Release lookup and download *)

(** [get_latest_release] issues one request, to the "latest release"
    address, and looks at the body only: the value of "tag_name" is
    returned whatever the status of the response, and a body without that
    key gives the [KeyError], also when the status says why (a 404 for a
    repository that does not exist). *)
Theorem get_latest_release_body_only (E : Env) (username repo : string)
    (w : World) (response : Response) (obj : list (string * string)) :
  http_get E (requests w) (Run.latest_url username repo) = Ok response ->
  json response = Ok obj ->
  get_latest_release E username repo w
    = (match assoc "tag_name" obj with
       | Some tag_name => Ok tag_name
       | None => Raise (KeyError "tag_name")
       end,
       add_request (Run.latest_url username repo) (Ok response) w).
Proof.
  intros Hget Hjson. unfold get_latest_release, bind, requests_get, lift, ret.
  change ("https://api.github.com/repos/" ++ username ++ "/" ++ repo
          ++ "/releases/latest") with (Run.latest_url username repo).
  rewrite Hget. unfold json_getitem. rewrite Hjson.
  destruct (assoc "tag_name" obj); reflexivity.
Qed.

Lemma get_latest_release_body_only_witness :
  get_latest_release Fixture.good "octo" "samplepkg" Fixture.w0
    = (match assoc "tag_name" [("tag_name", "v1.2.0")] with
       | Some tag_name => Ok tag_name
       | None => Raise (KeyError "tag_name")
       end,
       add_request (Run.latest_url "octo" "samplepkg")
         (Ok (mkResponse 200 "OK" (Run.latest_url "octo" "samplepkg") ""
                (Ok [("tag_name", "v1.2.0")]))) Fixture.w0).
Proof.
  apply (get_latest_release_body_only Fixture.good "octo" "samplepkg" Fixture.w0
           (mkResponse 200 "OK" (Run.latest_url "octo" "samplepkg") ""
              (Ok [("tag_name", "v1.2.0")])) [("tag_name", "v1.2.0")]);
    reflexivity.
Defined.

Lemma raise_for_status_Ok (response : Response) :
  raise_for_status response = Ok tt <->
  (status_code response < 400 \/ 600 <= status_code response)%Z.
Proof.
  unfold raise_for_status.
  destruct (Z.leb_spec 400 (status_code response));
    destruct (Z.ltb_spec (status_code response) 500);
    destruct (Z.leb_spec 500 (status_code response));
    destruct (Z.ltb_spec (status_code response) 600);
    cbn [andb]; split; intros Hx; try lia; try reflexivity; discriminate Hx.
Qed.

Lemma raise_for_status_Raise (response : Response) (e : exn) :
  raise_for_status response = Raise e ->
  (400 <= status_code response < 600)%Z /\
  exists kind,
    e = HTTPError (PyStr.str_of_int (status_code response) ++ kind
                   ++ reason response ++ " for url: " ++ url response).
Proof.
  unfold raise_for_status.
  destruct (Z.leb_spec 400 (status_code response));
    destruct (Z.ltb_spec (status_code response) 500);
    destruct (Z.leb_spec 500 (status_code response));
    destruct (Z.ltb_spec (status_code response) 600);
    cbn [andb]; intros Hx; try discriminate Hx;
    injection Hx as <-; (split; [lia|]);
    first [ exists " Client Error: "; reflexivity
          | exists " Server Error: "; reflexivity ].
Qed.

(** [download_tar_gz] issues one request, to the archive address of the
    tag, and returns the response as it is exactly when its status is
    outside 400..599; a status inside is raised as the [HTTPError] whose
    message starts with the status. *)
Theorem download_tar_gz_status (E : Env) (username repo tag_name : string)
    (w : World) (response : Response) :
  http_get E (requests w) (Run.archive_url username repo tag_name)
    = Ok response ->
  snd (download_tar_gz E username repo tag_name w)
    = add_request (Run.archive_url username repo tag_name) (Ok response) w /\
  (fst (download_tar_gz E username repo tag_name w) = Ok response <->
   (status_code response < 400 \/ 600 <= status_code response)%Z) /\
  ((400 <= status_code response < 600)%Z ->
   exists msg,
     fst (download_tar_gz E username repo tag_name w) = Raise (HTTPError msg) /\
     PyStr.starts_with msg (PyStr.str_of_int (status_code response)) = true).
Proof.
  intros Hget. unfold download_tar_gz, bind, requests_get, lift, ret.
  change ("https://github.com/" ++ username ++ "/" ++ repo
          ++ "/archive/refs/tags/" ++ tag_name ++ ".tar.gz")
    with (Run.archive_url username repo tag_name).
  cbn zeta. rewrite Hget.
  destruct (raise_for_status response) as [[] | e] eqn:Hst; cbn [fst snd].
  - apply raise_for_status_Ok in Hst.
    split; [reflexivity|]. split; [split; [intros _; exact Hst | reflexivity]|].
    intros Hin. lia.
  - apply raise_for_status_Raise in Hst as [Hin [kind ->]].
    split; [reflexivity|]. split.
    + split; [discriminate | lia].
    + intros _. eexists. split; [reflexivity|]. apply starts_with_append.
Qed.

Lemma download_tar_gz_status_witness :
  fst (download_tar_gz Fixture.good "octo" "samplepkg" "v1.2.0" Fixture.w0)
    = Ok (mkResponse 200 "OK" (Run.archive_url "octo" "samplepkg" "v1.2.0")
            "archive" Fixture.no_json).
Proof.
  apply (proj1 (proj2 (download_tar_gz_status Fixture.good "octo" "samplepkg"
                         "v1.2.0" Fixture.w0
                         (mkResponse 200 "OK"
                            (Run.archive_url "octo" "samplepkg" "v1.2.0")
                            "archive" Fixture.no_json) eq_refl))).
  left. reflexivity.
Defined.

(** ** The first match of the walk *)

Lemma potential_first (needle : string) (files : list string)
    (filename : string) (others : list string) :
  potential needle files = filename :: others ->
  exists pre post,
    files = (pre ++ filename :: post)%list /\
    (forall f, In f pre -> PyStr.str_in needle (PyStr.lower f) = false) /\
    PyStr.str_in needle (PyStr.lower filename) = true.
Proof.
  unfold potential. induction files as [|f files IH]; [discriminate|].
  cbn [filter]. destruct (PyStr.str_in needle (PyStr.lower f)) eqn:Hf.
  - intros H. injection H as <- _. exists [], files. repeat split; try assumption.
    intros ? [].
  - intros H. destruct (IH H) as (pre & post & -> & Hpre & Hm).
    exists (f :: pre), post. repeat split; try assumption.
    intros x [<- | Hx]; [exact Hf | now apply Hpre].
Qed.

(** The file the three readers settle on: it is listed in the first
    directory of the walk that lists a matching name, and it is the first
    matching name of that listing; directories are not looked at, nor are
    matching files that come later. *)
Theorem first_match_first (needle : string)
    (walk : list (string * list string * list string)) (filepath : string) :
  first_match needle walk = Some filepath ->
  exists before root dirs files after pre filename post,
    walk = (before ++ (root, dirs, files) :: after)%list /\
    Spec.no_file_named needle before /\
    files = (pre ++ filename :: post)%list /\
    (forall f, In f pre -> PyStr.str_in needle (PyStr.lower f) = false) /\
    PyStr.str_in needle (PyStr.lower filename) = true /\
    filepath = OsPath.join root filename.
Proof.
  induction walk as [|[[root dirs] files] walk IH]; [discriminate|].
  cbn [first_match]. destruct (potential needle files) as [|f fs] eqn:Hp.
  - intros H.
    destruct (IH H) as (before & r & d & fl & after & pre & x & post
                        & -> & Hnone & Hfl & Hpre & Hm & Hpath).
    exists ((root, dirs, files) :: before), r, d, fl, after, pre, x, post.
    repeat split; try assumption.
    intros r0 d0 fl0 x0 [Heq | Hin] Hx.
    + injection Heq as <- <- <-.
      now apply (proj1 (potential_nil needle files) Hp).
    + now apply (Hnone r0 d0 fl0).
  - intros H. injection H as <-.
    destruct (potential_first _ _ _ _ Hp) as (pre & post & Hfl & Hpre & Hm).
    exists [], root, dirs, files, walk, pre, f, post.
    repeat split; try assumption. intros ? ? ? ? [].
Qed.

Lemma first_match_first_witness :
  exists before root dirs files after pre filename post,
    Fixture.walk Fixture.tmp = (before ++ (root, dirs, files) :: after)%list /\
    Spec.no_file_named "setup" before /\
    files = (pre ++ filename :: post)%list /\
    (forall f, In f pre -> PyStr.str_in "setup" (PyStr.lower f) = false) /\
    PyStr.str_in "setup" (PyStr.lower filename) = true /\
    Fixture.top ++ "/setup.py" = OsPath.join root filename.
Proof.
  apply (first_match_first "setup" (Fixture.walk Fixture.tmp)
           (Fixture.top ++ "/setup.py")).
  reflexivity.
Defined.

(** ** Paths of listed files *)

Lemma slash_free_rsplit (f : string) :
  Run.slash_free f = true -> OsPath.rsplit_slash f = None.
Proof.
  induction f as [|c f IH]; [reflexivity|]. cbn [Run.slash_free].
  intros H. apply andb_true_iff in H as [Hc Hf]. apply negb_true_iff in Hc.
  cbn [OsPath.rsplit_slash]. now rewrite (IH Hf), Hc.
Qed.

Lemma slash_free_start (f : string) :
  Run.slash_free f = true -> OsPath.startswith_slash f = false.
Proof.
  destruct f as [|c f]; [reflexivity|]. cbn [Run.slash_free].
  intros H. apply andb_true_iff in H as [Hc _]. now apply negb_true_iff in Hc.
Qed.

Lemma rsplit_append (a f : string) :
  Run.slash_free f = true ->
  OsPath.rsplit_slash (a ++ String OsPath.slash f)
  = Some (a ++ String OsPath.slash "", f).
Proof.
  intros Hf. induction a as [|c a IH].
  - simpl append. cbn [OsPath.rsplit_slash].
    now rewrite (slash_free_rsplit f Hf), Ascii.eqb_refl.
  - simpl append. cbn [OsPath.rsplit_slash]. now rewrite IH.
Qed.

Lemma endswith_slash_inv (root : string) :
  OsPath.endswith_slash root = true ->
  exists a, root = a ++ String OsPath.slash "".
Proof.
  induction root as [|c root IH]; [discriminate|].
  destruct root as [|d root].
  - cbn [OsPath.endswith_slash]. intros H. apply Ascii.eqb_eq in H as ->.
    now exists "".
  - intros H. destruct (IH H) as [a Ha]. exists (String c a).
    simpl append. now rewrite <- Ha.
Qed.

(** The base name of a listed file joined to its directory is the listed
    name. *)
Lemma basename_join (root f : string) :
  Run.slash_free f = true -> OsPath.basename (OsPath.join root f) = f.
Proof.
  intros Hf. unfold OsPath.join. rewrite (slash_free_start f Hf).
  unfold OsPath.basename.
  destruct root as [|c root]; [now rewrite (slash_free_rsplit f Hf)|].
  destruct (OsPath.endswith_slash (String c root)) eqn:Hend.
  - destruct (endswith_slash_inv _ Hend) as [a ->].
    rewrite append_assoc. change (String OsPath.slash "" ++ f) with (String OsPath.slash f).
    now rewrite (rsplit_append a f Hf).
  - change ("/" ++ f) with (String OsPath.slash f).
    now rewrite (rsplit_append (String c root) f Hf).
Qed.

Lemma all_slashes_append (root x : string) :
  root <> "" -> OsPath.endswith_slash root = false ->
  OsPath.all_slashes (root ++ x) = false.
Proof.
  induction root as [|c root IH]; [contradiction|]. intros _ Hend.
  simpl append. cbn [OsPath.all_slashes].
  destruct root as [|d root].
  - cbn [OsPath.endswith_slash] in Hend. now rewrite Hend.
  - rewrite IH; [apply andb_false_r | discriminate | exact Hend].
Qed.

Lemma rstrip_append_slash (root : string) :
  root <> "" -> OsPath.endswith_slash root = false ->
  OsPath.rstrip_slash (root ++ String OsPath.slash "") = root.
Proof.
  induction root as [|c root IH]; [contradiction|]. intros _ Hend.
  simpl append. cbn [OsPath.rstrip_slash].
  destruct root as [|d root].
  - cbn [OsPath.endswith_slash] in Hend. simpl. now rewrite Hend.
  - rewrite IH; [reflexivity | discriminate | exact Hend].
Qed.

(** The directory of a listed file joined to its directory is that
    directory. *)
Lemma dirname_join (root f : string) :
  root <> "" -> OsPath.endswith_slash root = false ->
  Run.slash_free f = true ->
  OsPath.dirname (OsPath.join root f) = root.
Proof.
  intros Hne Hend Hf. unfold OsPath.join. rewrite (slash_free_start f Hf), Hend.
  destruct root as [|c root]; [contradiction|].
  change ("/" ++ f) with (String OsPath.slash f).
  unfold OsPath.dirname. rewrite (rsplit_append (String c root) f Hf).
  rewrite (all_slashes_append _ _ Hne Hend).
  now apply rstrip_append_slash.
Qed.

(** ** More on the license classifier *)

Lemma max_from_key (d : list (string * nat)) :
  forall best, In (max_from best d) (fst best :: map fst d).
Proof.
  induction d as [|kv d IH]; intros best; cbn [max_from map].
  - now left.
  - destruct (snd best <? snd kv)%nat.
    + right. apply IH.
    + destruct (IH best) as [H | H]; [now left | right; now right].
Qed.

Lemma dict_max_key (d : list (string * nat)) (k : string) :
  dict_max d = Ok k -> In k (map fst d).
Proof.
  destruct d as [|kv d]; [discriminate|]. intros H. injection H as <-.
  apply max_from_key.
Qed.

(** A call of [parse_license] that returns: what it went through. *)
Lemma parse_license_Ok_inv (E : Env) (path : string) (w w' : World)
    (license_id license_file : string) :
  parse_license E path w = (Ok (license_id, license_file), w') ->
  exists filepath text,
    first_match "license" (os_walk E path) = Some filepath /\
    open_read E (OsPath.join path filepath) = Ok text /\
    dict_sum (Spec.votes text) <> 0 /\
    dict_max (Spec.votes text) = Ok license_id /\
    license_file = OsPath.basename filepath /\ w' = w.
Proof.
  intros Hrun.
  destruct (first_match "license" (os_walk E path)) as [filepath|] eqn:Hfind.
  2:{ rewrite (parse_license_missing E path w Hfind) in Hrun. discriminate Hrun. }
  destruct (open_read E (OsPath.join path filepath)) as [text | e] eqn:Hread.
  2:{ unfold parse_license in Hrun. rewrite Hfind in Hrun.
      unfold bind, lift in Hrun. rewrite Hread in Hrun. discriminate Hrun. }
  rewrite (parse_license_read E path w filepath text Hfind Hread) in Hrun.
  exists filepath, text.
  destruct (Nat.eqb_spec (dict_sum (Spec.votes text)) 0) as [H0 | Hne];
    [discriminate Hrun|].
  destruct (dict_max (Spec.votes text)) as [k | e]; [|discriminate Hrun].
  injection Hrun as <- <- <-. repeat split; assumption.
Qed.

(** What [parse_license] returns names a listed file and one of the four
    identifiers: the file name is a name of the tree as the walk lists it
    (not a path), it contains "license" with case ignored, and the call
    leaves the process state as it is. *)
Theorem parse_license_returns_listed_name (E : Env) (path : string)
    (w w' : World) (license_id license_file : string) :
  (forall root dirs files f,
     In (root, dirs, files) (os_walk E path) -> In f files ->
     Run.slash_free f = true) ->
  parse_license E path w = (Ok (license_id, license_file), w') ->
  w' = w /\
  In license_id Spec.identifiers /\
  PyStr.str_in "license" (PyStr.lower license_file) = true /\
  exists root dirs files,
    In (root, dirs, files) (os_walk E path) /\ In license_file files.
Proof.
  intros Hnames Hrun.
  apply parse_license_Ok_inv in Hrun
    as (filepath & text & Hfind & _ & _ & Hmax & -> & ->).
  split; [reflexivity|]. split.
  { apply dict_max_key in Hmax. exact Hmax. }
  apply first_match_Some in Hfind
    as (root & dirs & files & filename & Hin & Hf & Hm & ->).
  rewrite (basename_join root filename (Hnames _ _ _ _ Hin Hf)).
  split; [exact Hm|]. now exists root, dirs, files.
Qed.

Lemma parse_license_returns_listed_name_witness :
  Fixture.w0 = Fixture.w0 /\
  In "MIT" Spec.identifiers /\
  PyStr.str_in "license" (PyStr.lower "LICENSE") = true /\
  exists root dirs files,
    In (root, dirs, files) (os_walk Fixture.good Fixture.tmp) /\
    In "LICENSE" files.
Proof.
  apply (parse_license_returns_listed_name Fixture.good Fixture.tmp
           Fixture.w0 Fixture.w0 "MIT" "LICENSE").
  - intros root dirs files f Hin Hf. vm_compute in Hin.
    destruct Hin as [Hin | [Hin | [Hin | []]]]; injection Hin as <- <- <-;
      simpl in Hf;
      repeat (destruct Hf as [<- | Hf]; [reflexivity|]); destruct Hf.
  - reflexivity.
Defined.

Lemma occurrences_zero (p s : string) :
  p <> "" -> (Spec.occurrences p s = 0 <-> PyStr.str_in p s = false).
Proof.
  intros Hp. induction s as [|c s IH].
  - destruct p; [contradiction | split; reflexivity].
  - cbn [Spec.occurrences PyStr.str_in].
    destruct (PyStr.starts_with (String c s) p).
    + split; intros H; [simpl in H; lia | discriminate H].
    + cbn [Nat.add orb]. exact IH.
Qed.

Lemma votes_zero (text : string) :
  dict_sum (Spec.votes text) = 0 <-> Run.keyword_in text = false.
Proof.
  unfold dict_sum, Spec.votes, Run.keyword_in. cbn [map snd list_sum].
  rewrite <- !occurrences_lower by reflexivity.
  rewrite !orb_false_iff.
  rewrite <- !occurrences_zero by discriminate.
  cbn [list_sum fold_right]. lia.
Qed.

(** Once the license file is found and read, [parse_license] returns
    exactly when one of the four keywords is part of the text ("MIT" and
    "GNU" as written, "apache" and "bsd 3" in any case), whether as a word
    of its own or inside a longer word. *)
Theorem parse_license_returns_iff_keyword (E : Env) (path : string)
    (w : World) (filepath text : string) :
  first_match "license" (os_walk E path) = Some filepath ->
  open_read E (OsPath.join path filepath) = Ok text ->
  (Run.keyword_in text = true <->
   exists license_id,
     parse_license E path w
       = (Ok (license_id, OsPath.basename filepath), w)).
Proof.
  intros Hfind Hread.
  rewrite (parse_license_read E path w filepath text Hfind Hread).
  destruct (Nat.eqb_spec (dict_sum (Spec.votes text)) 0) as [H0 | Hne].
  - apply votes_zero in H0. rewrite H0. split; [discriminate|].
    intros [k Hk]. discriminate Hk.
  - destruct (dict_max_winner (Spec.votes text)) as (k & v & Hmax & _);
      [discriminate|].
    rewrite Hmax. split.
    + intros _. now exists k.
    + intros _. destruct (Run.keyword_in text) eqn:Hk; [reflexivity|].
      apply votes_zero in Hk. contradiction.
Qed.

Lemma parse_license_returns_iff_keyword_witness :
  Run.keyword_in "Permission is granted, including without LIMITATION" = true /\
  exists license_id,
    parse_license
      (Fixture.env_with "Permission is granted, including without LIMITATION"
         (Ok (Fixture.dist "1.2.0")) 200 "OK") Fixture.tmp Fixture.w0
      = (Ok (license_id, OsPath.basename (Fixture.top ++ "/LICENSE")), Fixture.w0).
Proof.
  split; [reflexivity|].
  apply (proj1 (parse_license_returns_iff_keyword
                  (Fixture.env_with
                     "Permission is granted, including without LIMITATION"
                     (Ok (Fixture.dist "1.2.0")) 200 "OK")
                  Fixture.tmp Fixture.w0 (Fixture.top ++ "/LICENSE")
                  "Permission is granted, including without LIMITATION"
                  eq_refl eq_refl)).
  reflexivity.
Defined.

(** ** More on the maintainer validator *)

Lemma validate_maintainers_404_witness :
  fst (validate_maintainers Fixture.nobody ["alice"; "bob"] Fixture.w0)
    = Raise (maintainer_not_found "alice").
Proof.
  apply (validate_maintainers_404 Fixture.nobody "alice" ["bob"] Fixture.w0
           (mkResponse 404 "Not Found" (Run.users_url "alice") ""
              Fixture.no_json));
    reflexivity.
Defined.

(** The handler looks for "404" in the whole message of the error, and the
    message holds the reason phrase and the address: whenever the lookup
    answers with a status in 400..599 and "404" is part of the reason or of
    the address of the response (so, of the handle), the error raised is
    "could not be found", whatever the status. *)
Theorem validate_maintainers_404_in_message (E : Env) (maintainer : string)
    (rest : list string) (w : World) (response : Response) :
  http_get E (requests w) (Run.users_url maintainer) = Ok response ->
  (400 <= status_code response < 600)%Z ->
  PyStr.str_in "404" (reason response) = true \/
  PyStr.str_in "404" (url response) = true ->
  fst (validate_maintainers E (maintainer :: rest) w)
    = Raise (maintainer_not_found maintainer).
Proof.
  intros Hget Hst Hin. rewrite validate_maintainers_cons. cbn zeta.
  change ("https://api.github.com/users/" ++ maintainer)
    with (Run.users_url maintainer).
  rewrite Hget.
  destruct (raise_for_status response) as [[] | e] eqn:Hraise.
  - apply raise_for_status_Ok in Hraise. lia.
  - apply raise_for_status_Raise in Hraise as [_ [kind ->]].
    assert (Hmsg : PyStr.str_in "404"
              (PyStr.str_of_int (status_code response) ++ kind
               ++ reason response ++ " for url: " ++ url response) = true).
    { do 2 apply str_in_append_l. destruct Hin as [Hin | Hin].
      - now apply str_in_append_r.
      - now do 2 apply str_in_append_l. }
    rewrite Hmsg. reflexivity.
Qed.

Lemma validate_maintainers_404_in_message_witness :
  fst (validate_maintainers Fixture.limited ["dev404"; "alice"] Fixture.w0)
    = Raise (maintainer_not_found "dev404").
Proof.
  apply (validate_maintainers_404_in_message Fixture.limited "dev404" ["alice"]
           Fixture.w0
           (mkResponse 403 "rate limit exceeded" (Run.users_url "dev404") ""
              Fixture.no_json)).
  - reflexivity.
  - simpl. lia.
  - right. reflexivity.
Defined.

(** [validate_maintainers] looks the handles up in order, one request a
    handle, and stops at the first lookup that does not pass: it returns
    exactly when every handle was looked up and every lookup passed
    (no exception, a status outside 400..599); otherwise the handles after
    the failing one are not looked up, and the error is the one of the
    failing lookup, replaced by "could not be found" when it is an
    [HTTPError] with "404" in its message. *)
Theorem validate_maintainers_fail_fast (E : Env) (maintainers : list string)
    (w : World) :
  exists events,
    requests (snd (validate_maintainers E maintainers w))
      = (requests w ++ events)%list /\
    match fst (validate_maintainers E maintainers w) with
    | Ok _ =>
        map fst events = map Run.users_url maintainers /\
        Forall (fun ev => Run.passes (snd ev) = true) events
    | Raise e =>
        exists checked maintainer rest passed outcome x,
          maintainers = (checked ++ maintainer :: rest)%list /\
          events = (passed ++ [(Run.users_url maintainer, outcome)])%list /\
          map fst passed = map Run.users_url checked /\
          Forall (fun ev => Run.passes (snd ev) = true) passed /\
          Run.error_of outcome = Some x /\
          e = match x with
              | HTTPError msg =>
                  if PyStr.str_in "404" msg
                  then maintainer_not_found maintainer else x
              | _ => x
              end
    end.
Proof.
  revert w. induction maintainers as [|maintainer maintainers IH]; intros w.
  - exists []. simpl. rewrite app_nil_r. repeat split. constructor.
  - rewrite validate_maintainers_cons. cbn zeta.
    change ("https://api.github.com/users/" ++ maintainer)
      with (Run.users_url maintainer).
    set (outcome := http_get E (requests w) (Run.users_url maintainer)).
    assert (Hstop : forall x e,
              Run.error_of outcome = Some x ->
              e = match x with
                  | HTTPError msg =>
                      if PyStr.str_in "404" msg
                      then maintainer_not_found maintainer else x
                  | _ => x
                  end ->
              exists checked m rest passed o y,
                maintainer :: maintainers = (checked ++ m :: rest)%list /\
                [(Run.users_url maintainer, outcome)]
                  = (passed ++ [(Run.users_url m, o)])%list /\
                map fst passed = map Run.users_url checked /\
                Forall (fun ev => Run.passes (snd ev) = true) passed /\
                Run.error_of o = Some y /\
                e = match y with
                    | HTTPError msg =>
                        if PyStr.str_in "404" msg
                        then maintainer_not_found m else y
                    | _ => y
                    end).
    { intros x e Hx He.
      exists [], maintainer, maintainers, [], outcome, x.
      repeat split; try assumption. constructor. }
    destruct outcome as [response | x] eqn:Hout.
    + destruct (raise_for_status response) as [[] | x] eqn:Hraise.
      * destruct (IH (add_request (Run.users_url maintainer) (Ok response) w))
          as [events [Hreq Hres]].
        exists ((Run.users_url maintainer, Ok response) :: events). split.
        { rewrite Hreq. cbn [add_request requests]. now rewrite <- app_assoc. }
        destruct (fst (validate_maintainers E maintainers
                         (add_request (Run.users_url maintainer) (Ok response) w)))
          as [[] | e].
        -- destruct Hres as [Hmap Hall]. split.
           ++ cbn [map fst]. now rewrite Hmap.
           ++ constructor; [|exact Hall].
              cbn [snd Run.passes]. now rewrite Hraise.
        -- destruct Hres as (checked & m & rest & passed & o & y
                             & -> & -> & Hmap & Hall & Hy & He).
           exists (maintainer :: checked), m, rest,
                  ((Run.users_url maintainer, Ok response) :: passed), o, y.
           repeat split; try assumption.
           ++ cbn [map fst]. now rewrite Hmap.
           ++ constructor; [|exact Hall].
              cbn [snd Run.passes]. now rewrite Hraise.
      * exists [(Run.users_url maintainer, Ok response)].
        assert (Hx : Run.error_of (Ok response) = Some x)
          by (cbn [Run.error_of]; now rewrite Hraise).
        destruct x as [msg | msg | key | cls msg];
          try (split; [reflexivity|]; now apply (Hstop _ _ Hx)).
        destruct (PyStr.str_in "404" msg) eqn:H404;
          (split; [reflexivity|]); apply (Hstop _ _ Hx); now rewrite H404.
    + exists [(Run.users_url maintainer, Raise x)].
      assert (Hx : Run.error_of (@Raise Response x) = Some x) by reflexivity.
      destruct x as [msg | msg | key | cls msg];
        try (split; [reflexivity|]; now apply (Hstop _ _ Hx)).
      destruct (PyStr.str_in "404" msg) eqn:H404;
        (split; [reflexivity|]); apply (Hstop _ _ Hx); now rewrite H404.
Qed.

Lemma validate_maintainers_fail_fast_witness :
  exists events,
    requests (snd (validate_maintainers Fixture.good ["alice"; "bob"] Fixture.w0))
      = (requests Fixture.w0 ++ events)%list /\
    map fst events = [Run.users_url "alice"; Run.users_url "bob"] /\
    fst (validate_maintainers Fixture.good ["alice"; "bob"] Fixture.w0) = Ok tt.
Proof.
  destruct (validate_maintainers_fail_fast Fixture.good ["alice"; "bob"]
              Fixture.w0) as [events [Hreq _]].
  exists events. split; [exact Hreq|].
  vm_compute in Hreq. apply (f_equal (map fst)) in Hreq. simpl in Hreq.
  split; [now rewrite <- Hreq | reflexivity].
Defined.

(** ** What each step leaves alone *)

Lemma keeps_requests_ret {A : Type} (a : A) : Run.keeps_requests (ret a).
Proof. intros w. reflexivity. Qed.

Lemma keeps_requests_raise {A : Type} (e : exn) : Run.keeps_requests (@raise A e).
Proof. intros w. reflexivity. Qed.

Lemma keeps_requests_lift {A : Type} (r : result A) : Run.keeps_requests (lift r).
Proof. intros w. reflexivity. Qed.

Lemma keeps_requests_bind {A B : Type} (m : M A) (k : A -> M B) :
  Run.keeps_requests m -> (forall a, Run.keeps_requests (k a)) ->
  Run.keeps_requests (bind m k).
Proof.
  intros Hm Hk w. unfold bind. specialize (Hm w).
  destruct (m w) as [[a | e] w1]; simpl in Hm.
  - now rewrite Hk.
  - exact Hm.
Qed.

Lemma keeps_requests_os_getcwd : Run.keeps_requests os_getcwd.
Proof. intros w. reflexivity. Qed.

Lemma keeps_requests_os_chdir (E : Env) (d : string) :
  Run.keeps_requests (os_chdir E d).
Proof. intros w. unfold os_chdir. destruct (chdir_error E d); reflexivity. Qed.

Lemma keeps_requests_sys_path_insert0 (d : string) :
  Run.keeps_requests (sys_path_insert0 d).
Proof. intros w. reflexivity. Qed.

#[local] Hint Resolve keeps_requests_ret keeps_requests_raise keeps_requests_lift
  keeps_requests_os_getcwd keeps_requests_os_chdir
  keeps_requests_sys_path_insert0 : frame.

Ltac frame_requests :=
  repeat first
    [ apply keeps_requests_bind; [|intros ?]
    | solve [auto with frame]
    | match goal with
      | |- Run.keeps_requests (match ?x with _ => _ end) => destruct x
      | |- Run.keeps_requests (if ?b then _ else _) => destruct b
      end ].

Lemma keeps_requests_extract_tar_gz (E : Env) (response : Response) :
  Run.keeps_requests (extract_tar_gz E response).
Proof. unfold extract_tar_gz. frame_requests. Qed.

Lemma keeps_requests_parse_license (E : Env) (path : string) :
  Run.keeps_requests (parse_license E path).
Proof. unfold parse_license. frame_requests. Qed.

Lemma keeps_requests_get_requirements (E : Env) (path : string) :
  Run.keeps_requests (get_requirements E path).
Proof. unfold get_requirements. frame_requests. Qed.

Lemma keeps_requests_run {A : Type} (m : M A) (w w' : World) (r : result A) :
  Run.keeps_requests m -> m w = (r, w') -> requests w' = requests w.
Proof. intros Hm Hrun. specialize (Hm w). now rewrite Hrun in Hm. Qed.

Lemma keeps_dirs_ret {A : Type} (a : A) : Run.keeps_dirs (ret a).
Proof. intros w. split; reflexivity. Qed.

Lemma keeps_dirs_raise {A : Type} (e : exn) : Run.keeps_dirs (@raise A e).
Proof. intros w. split; reflexivity. Qed.

Lemma keeps_dirs_lift {A : Type} (r : result A) : Run.keeps_dirs (lift r).
Proof. intros w. split; reflexivity. Qed.

Lemma keeps_dirs_requests_get (E : Env) (u : string) :
  Run.keeps_dirs (requests_get E u).
Proof. intros w. split; reflexivity. Qed.

Lemma keeps_dirs_bind {A B : Type} (m : M A) (k : A -> M B) :
  Run.keeps_dirs m -> (forall a, Run.keeps_dirs (k a)) ->
  Run.keeps_dirs (bind m k).
Proof.
  intros Hm Hk w. unfold bind. specialize (Hm w).
  destruct (m w) as [[a | e] w1]; simpl in Hm.
  - destruct Hm as [<- <-]. apply Hk.
  - exact Hm.
Qed.

Lemma keeps_dirs_except {A : Type} (m : M A) (handler : exn -> M A) :
  Run.keeps_dirs m -> (forall e, Run.keeps_dirs (handler e)) ->
  Run.keeps_dirs (except_HTTPError m handler).
Proof.
  intros Hm Hh w. unfold except_HTTPError. specialize (Hm w).
  destruct (m w) as [[a | e] w1]; simpl in Hm; [exact Hm|].
  destruct e; try exact Hm. destruct Hm as [<- <-]. apply Hh.
Qed.

#[local] Hint Resolve keeps_dirs_ret keeps_dirs_raise keeps_dirs_lift
  keeps_dirs_requests_get : frame.

Ltac frame_dirs :=
  repeat first
    [ apply keeps_dirs_bind; [|intros ?]
    | apply keeps_dirs_except; [|intros ?]
    | solve [auto with frame]
    | match goal with
      | |- Run.keeps_dirs (match ?x with _ => _ end) => destruct x
      | |- Run.keeps_dirs (if ?b then _ else _) => destruct b
      end ].

Lemma keeps_dirs_get_latest_release (E : Env) (username repo : string) :
  Run.keeps_dirs (get_latest_release E username repo).
Proof. unfold get_latest_release. frame_dirs. Qed.

Lemma keeps_dirs_download_tar_gz (E : Env) (username repo tag_name : string) :
  Run.keeps_dirs (download_tar_gz E username repo tag_name).
Proof. unfold download_tar_gz. frame_dirs. Qed.

Lemma keeps_dirs_extract_tar_gz (E : Env) (response : Response) :
  Run.keeps_dirs (extract_tar_gz E response).
Proof. unfold extract_tar_gz. frame_dirs. Qed.

Lemma keeps_dirs_parse_license (E : Env) (path : string) :
  Run.keeps_dirs (parse_license E path).
Proof. unfold parse_license. frame_dirs. Qed.

Lemma keeps_dirs_get_requirements (E : Env) (path : string) :
  Run.keeps_dirs (get_requirements E path).
Proof. unfold get_requirements. frame_dirs. Qed.

Lemma keeps_dirs_validate_maintainers (E : Env) (maintainers : list string) :
  Run.keeps_dirs (validate_maintainers E maintainers).
Proof.
  induction maintainers as [|maintainer rest IH]; cbn [validate_maintainers].
  - frame_dirs.
  - apply keeps_dirs_bind; [frame_dirs | intros _; exact IH].
Qed.

Lemma keeps_dirs_validate_urls (E : Env) (urls : list string) :
  Run.keeps_dirs (validate_urls E urls).
Proof.
  induction urls as [|url rest IH]; cbn [validate_urls].
  - frame_dirs.
  - destruct (String.length url =? 0)%nat; [exact IH|].
    apply keeps_dirs_bind; [frame_dirs | intros response].
    destruct (negb (status_code response =? 200)%Z); [frame_dirs | exact IH].
Qed.

Lemma keeps_dirs_run {A : Type} (m : M A) (w w' : World) (r : result A) :
  Run.keeps_dirs m -> m w = (r, w') ->
  cwd w' = cwd w /\ sys_path w' = sys_path w.
Proof. intros Hm Hrun. specialize (Hm w). now rewrite Hrun in Hm. Qed.

(** The requests of the steps that issue some. *)

Lemma get_latest_release_requests (E : Env) (username repo : string)
    (w w' : World) (r : result string) :
  get_latest_release E username repo w = (r, w') ->
  map fst (requests w')
    = (map fst (requests w) ++ [Run.latest_url username repo])%list.
Proof.
  unfold get_latest_release, bind, requests_get, lift, ret.
  change ("https://api.github.com/repos/" ++ username ++ "/" ++ repo
          ++ "/releases/latest") with (Run.latest_url username repo).
  destruct (http_get E (requests w) (Run.latest_url username repo)) as [resp | e].
  - destruct (json_getitem resp "tag_name"); intros H; injection H as _ <-;
      cbn [add_request requests]; now rewrite map_app.
  - intros H; injection H as _ <-.
    cbn [add_request requests]; now rewrite map_app.
Qed.

Lemma download_tar_gz_requests (E : Env) (username repo tag_name : string)
    (w w' : World) (r : result Response) :
  download_tar_gz E username repo tag_name w = (r, w') ->
  map fst (requests w')
    = (map fst (requests w) ++ [Run.archive_url username repo tag_name])%list.
Proof.
  unfold download_tar_gz, bind, requests_get, lift, ret. cbn zeta.
  change ("https://github.com/" ++ username ++ "/" ++ repo
          ++ "/archive/refs/tags/" ++ tag_name ++ ".tar.gz")
    with (Run.archive_url username repo tag_name).
  destruct (http_get E (requests w) (Run.archive_url username repo tag_name))
    as [resp | e].
  - destruct (raise_for_status resp); intros H; injection H as _ <-;
      cbn [add_request requests]; now rewrite map_app.
  - intros H; injection H as _ <-.
    cbn [add_request requests]; now rewrite map_app.
Qed.

Lemma validate_maintainers_Ok_requests (E : Env) (maintainers : list string) :
  forall w w',
    validate_maintainers E maintainers w = (Ok tt, w') ->
    map fst (requests w')
      = (map fst (requests w) ++ map Run.users_url maintainers)%list.
Proof.
  induction maintainers as [|maintainer rest IH]; intros w w' Hrun.
  - injection Hrun as <-. now rewrite app_nil_r.
  - rewrite validate_maintainers_cons in Hrun. cbn zeta in Hrun.
    destruct (http_get E (requests w) _) as [response | x].
    + destruct (raise_for_status response) as [[] | x].
      * apply IH in Hrun. rewrite Hrun. cbn [add_request requests map].
        rewrite map_app, <- app_assoc. reflexivity.
      * destruct x; try discriminate Hrun.
        destruct (PyStr.str_in "404" msg); discriminate Hrun.
    + destruct x; try discriminate Hrun.
      destruct (PyStr.str_in "404" msg); discriminate Hrun.
Qed.

Lemma validate_urls_Ok_requests (E : Env) (urls : list string) :
  forall w w',
    validate_urls E urls w = (Ok tt, w') ->
    map fst (requests w')
      = (map fst (requests w) ++ filter Spec.nonempty urls)%list.
Proof.
  induction urls as [|url rest IH]; intros w w' Hrun.
  - injection Hrun as <-. now rewrite app_nil_r.
  - destruct (Spec.nonempty url) eqn:Hne.
    + rewrite validate_urls_get in Hrun by assumption. cbn zeta in Hrun.
      cbn [filter]. rewrite Hne.
      destruct (http_get E (requests w) url) as [response | x];
        [|discriminate Hrun].
      destruct (status_code response =? 200)%Z; [|discriminate Hrun].
      apply IH in Hrun. rewrite Hrun. cbn [add_request requests].
      rewrite map_app, <- app_assoc. reflexivity.
    + rewrite validate_urls_empty in Hrun by assumption.
      cbn [filter]. rewrite Hne. now apply IH.
Qed.

(** ** More on the build-metadata parser *)

(** When the walk lists directories by a path that does not end in a slash
    and files by their bare names, a call of [parse_setup_py] that returns
    has started the setup script with the working directory set to the
    directory that lists the script and with that directory first on
    [sys.path], the rest of the process state as the caller had it;
    afterwards the working directory is the former one again and
    everything else is as the script left it. *)
Theorem parse_setup_py_enters_directory (E : Env) (path : string)
    (w w' : World) (distribution : Distribution) :
  (forall root dirs files,
     In (root, dirs, files) (os_walk E path) ->
     root <> "" /\ OsPath.endswith_slash root = false /\
     forall f, In f files -> Run.slash_free f = true) ->
  parse_setup_py E path w = (Ok distribution, w') ->
  exists root dirs files filename w2,
    In (root, dirs, files) (os_walk E path) /\ In filename files /\
    PyStr.str_in "setup" (PyStr.lower filename) = true /\
    run_setup E (mkWorld root (root :: sys_path w) (warnings w) (requests w))
      (OsPath.join root filename) = (Ok distribution, w2) /\
    w' = mkWorld (cwd w) (sys_path w2) (warnings w2) (requests w2).
Proof.
  intros Hwalk Hrun.
  apply parse_setup_py_Ok_inv in Hrun as (filepath & w2 & Hfind & Hsetup & ->).
  apply first_match_Some in Hfind
    as (root & dirs & files & filename & Hin & Hf & Hm & ->).
  destruct (Hwalk _ _ _ Hin) as (Hne & Hend & Hfiles).
  rewrite (dirname_join root filename Hne Hend (Hfiles _ Hf)) in *.
  exists root, dirs, files, filename, w2. repeat split; assumption.
Qed.

Lemma parse_setup_py_enters_directory_witness :
  exists root dirs files filename w2,
    In (root, dirs, files) (os_walk Fixture.noisy Fixture.tmp) /\
    In filename files /\
    PyStr.str_in "setup" (PyStr.lower filename) = true /\
    run_setup Fixture.noisy
      (mkWorld root (root :: sys_path Fixture.w0) (warnings Fixture.w0)
         (requests Fixture.w0))
      (OsPath.join root filename) = (Ok (Fixture.dist "1.2.0"), w2) /\
    mkWorld "/home/user"
      ["/opt/build-helpers"; "/tmp/tmpk3v9x2/samplepkg-1.2.0"; "/usr/lib/python3.9"]
      ["Unknown distribution option: 'foo'"] []
    = mkWorld (cwd Fixture.w0) (sys_path w2) (warnings w2) (requests w2).
Proof.
  apply (parse_setup_py_enters_directory Fixture.noisy Fixture.tmp Fixture.w0
           (mkWorld "/home/user"
              ["/opt/build-helpers"; "/tmp/tmpk3v9x2/samplepkg-1.2.0";
               "/usr/lib/python3.9"]
              ["Unknown distribution option: 'foo'"] [])
           (Fixture.dist "1.2.0")).
  - intros root dirs files Hin. vm_compute in Hin.
    destruct Hin as [Hin | [Hin | [Hin | []]]]; injection Hin as <- <- <-;
      (split; [discriminate|]); (split; [reflexivity|]);
      intros f Hf; simpl in Hf;
      repeat (destruct Hf as [<- | Hf]; [reflexivity|]); destruct Hf.
  - reflexivity.
Defined.

(** ** More on the pipeline *)

(** A run of [make_meta] that returns: the version check leaves the
    working directory, [sys.path] and the requests as the validators left
    them. *)
Lemma make_meta_Ok_end (E : Env) (w' w8 : World) (version tag_name : string) :
  (PyStr.str_in version tag_name = true /\ w' = w8) \/
  (PyStr.str_in version tag_name = false /\
   warn_filter E w8 (version_warning version tag_name) = Shown /\
   w' = add_warning (version_warning version tag_name) w8) \/
  (PyStr.str_in version tag_name = false /\
   warn_filter E w8 (version_warning version tag_name) = Ignored /\
   w' = w8) ->
  cwd w' = cwd w8 /\ sys_path w' = sys_path w8 /\ requests w' = requests w8.
Proof.
  intros [[_ ->] | [(_ & _ & ->) | (_ & _ & ->)]]; repeat split.
Qed.

(** The requests of a run of [make_meta_yaml] that returns.  Up to the
    start of [parse_setup_py] the script has requested the latest release
    and then the archive of its tag, and nothing else.  After
    [parse_setup_py], which runs the setup script, it has requested the
    user lookup of every maintainer, in order, and then the non-empty ones
    of the repository page, the url of the distribution and the
    documentation address, and nothing else. *)
Theorem make_meta_yaml_requests (E : Env) (username repo : string)
    (maintainers : list string) (documentation_url : string) (w w' : World)
    (manifest : string) :
  make_meta_yaml E username repo maintainers documentation_url w
    = (Ok manifest, w') ->
  exists tag_name w1 response w2 tmp w3 license w4 requirements w5
         distribution w6 w7 w8,
    Run.stages E username repo maintainers documentation_url w tag_name w1
      response w2 tmp w3 license w4 requirements w5 distribution w6 w7 w8 /\
    map fst (requests w5)
      = (map fst (requests w)
         ++ [Run.latest_url username repo;
             Run.archive_url username repo tag_name])%list /\
    map fst (requests w')
      = (map fst (requests w6)
         ++ map Run.users_url maintainers
         ++ filter Spec.nonempty
              [Run.github_url username repo; get_url distribution;
               documentation_url])%list.
Proof.
  intros Hrun.
  apply make_meta_yaml_Ok_inv in Hrun as (preamble & meta & Hrun & _).
  apply make_meta_Ok_inv in Hrun
    as (tag_name & w1 & response & w2 & tmp & w3 & license_id & license_file
        & w4 & requirements & w5 & distribution & w6 & w7 & w8
        & H1 & H2 & H3 & H4 & H5 & H6 & H7 & H8 & Hw' & _).
  exists tag_name, w1, response, w2, tmp, w3, (license_id, license_file), w4,
         requirements, w5, distribution, w6, w7, w8.
  split; [unfold Run.stages; repeat (split; [assumption|]); exact H8|].
  split.
  - rewrite (keeps_requests_run _ _ _ _ (keeps_requests_get_requirements _ _) H5).
    rewrite (keeps_requests_run _ _ _ _ (keeps_requests_parse_license _ _) H4).
    rewrite (keeps_requests_run _ _ _ _ (keeps_requests_extract_tar_gz _ _) H3).
    rewrite (download_tar_gz_requests _ _ _ _ _ _ _ H2).
    rewrite (get_latest_release_requests _ _ _ _ _ _ H1).
    rewrite <- app_assoc. reflexivity.
  - destruct (make_meta_Ok_end _ _ _ _ _ Hw') as (_ & _ & ->).
    rewrite (validate_urls_Ok_requests _ _ _ _ H8).
    rewrite (validate_maintainers_Ok_requests _ _ _ _ H7).
    rewrite <- app_assoc. reflexivity.
Qed.

Lemma make_meta_yaml_requests_witness :
  exists w',
    snd (make_meta_yaml Fixture.good "octo" "samplepkg" ["alice"; "bob"] ""
           Fixture.w0) = w' /\
    map fst (requests w')
      = [Run.latest_url "octo" "samplepkg";
         Run.archive_url "octo" "samplepkg" "v1.2.0";
         Run.users_url "alice"; Run.users_url "bob";
         "https://github.com/octo/samplepkg"; "https://example.com"].
Proof.
  destruct (make_meta_yaml Fixture.good "octo" "samplepkg" ["alice"; "bob"] ""
              Fixture.w0) as [[manifest | e] w'] eqn:Hrun;
    [|vm_compute in Hrun; discriminate Hrun].
  exists w'. split; [reflexivity|].
  destruct (make_meta_yaml_requests Fixture.good "octo" "samplepkg"
              ["alice"; "bob"] "" Fixture.w0 w' manifest Hrun)
    as (tag_name & _).
  vm_compute in Hrun. injection Hrun as _ <-. reflexivity.
Defined.

(** A run of [make_meta_yaml] that returns leaves the working directory as
    it was, whatever the setup script did to it.  The setup script was
    started with its directory put in front of the [sys.path] of the
    caller, and nothing in the run touches [sys.path] after the script:
    the caller finds it as the script left it. *)
Theorem make_meta_yaml_dirs (E : Env) (username repo : string)
    (maintainers : list string) (documentation_url : string) (w w' : World)
    (manifest : string) :
  make_meta_yaml E username repo maintainers documentation_url w
    = (Ok manifest, w') ->
  cwd w' = cwd w /\
  exists tag_name w1 response w2 tmp w3 license w4 requirements w5
         distribution w6 w7 w8 filepath w_script,
    Run.stages E username repo maintainers documentation_url w tag_name w1
      response w2 tmp w3 license w4 requirements w5 distribution w6 w7 w8 /\
    first_match "setup" (os_walk E tmp) = Some filepath /\
    run_setup E
      (mkWorld (OsPath.dirname filepath)
         (OsPath.dirname filepath :: sys_path w) (warnings w5) (requests w5))
      filepath = (Ok distribution, w_script) /\
    sys_path w' = sys_path w_script.
Proof.
  intros Hrun.
  apply make_meta_yaml_Ok_inv in Hrun as (preamble & meta & Hrun & _).
  apply make_meta_Ok_inv in Hrun
    as (tag_name & w1 & response & w2 & tmp & w3 & license_id & license_file
        & w4 & requirements & w5 & distribution & w6 & w7 & w8
        & H1 & H2 & H3 & H4 & H5 & H6 & H7 & H8 & Hw' & _).
  assert (Hst : Run.stages E username repo maintainers documentation_url w
                  tag_name w1 response w2 tmp w3 (license_id, license_file)
                  w4 requirements w5 distribution w6 w7 w8)
    by (unfold Run.stages; repeat (split; [assumption|]); exact H8).
  destruct (make_meta_Ok_end _ _ _ _ _ Hw') as (Hc & Hs & _).
  rewrite Hc, Hs. clear Hc Hs Hw'.
  destruct (keeps_dirs_run _ _ _ _ (keeps_dirs_validate_urls _ _) H8) as [-> ->].
  destruct (keeps_dirs_run _ _ _ _ (keeps_dirs_validate_maintainers _ _) H7)
    as [-> ->].
  pose proof H6 as Hsetup.
  apply parse_setup_py_Ok_inv in Hsetup as (filepath & w_script & Hfind & Hsetup & Hw6).
  assert (Hdirs : cwd w5 = cwd w /\ sys_path w5 = sys_path w).
  { destruct (keeps_dirs_run _ _ _ _ (keeps_dirs_get_requirements _ _) H5)
      as [-> ->].
    destruct (keeps_dirs_run _ _ _ _ (keeps_dirs_parse_license _ _) H4)
      as [-> ->].
    destruct (keeps_dirs_run _ _ _ _ (keeps_dirs_extract_tar_gz _ _) H3)
      as [-> ->].
    destruct (keeps_dirs_run _ _ _ _ (keeps_dirs_download_tar_gz _ _ _ _) H2)
      as [-> ->].
    exact (keeps_dirs_run _ _ _ _ (keeps_dirs_get_latest_release _ _ _) H1). }
  destruct Hdirs as [Hc Hs]. rewrite Hs in Hsetup.
  rewrite Hw6. cbn [cwd sys_path]. split; [exact Hc|].
  exists tag_name, w1, response, w2, tmp, w3, (license_id, license_file), w4,
         requirements, w5, distribution, w6, w7, w8, filepath, w_script.
  repeat split; assumption.
Qed.

Lemma make_meta_yaml_dirs_witness :
  exists w',
    snd (make_meta_yaml Fixture.noisy "octo" "samplepkg" ["alice"] ""
           Fixture.w0) = w' /\
    cwd w' = "/home/user" /\
    sys_path w'
      = ["/opt/build-helpers"; "/tmp/tmpk3v9x2/samplepkg-1.2.0";
         "/usr/lib/python3.9"].
Proof.
  destruct (make_meta_yaml Fixture.noisy "octo" "samplepkg" ["alice"] ""
              Fixture.w0) as [[manifest | e] w'] eqn:Hrun;
    [|vm_compute in Hrun; discriminate Hrun].
  exists w'. split; [reflexivity|].
  destruct (make_meta_yaml_dirs Fixture.noisy "octo" "samplepkg" ["alice"] ""
              Fixture.w0 w' manifest Hrun) as [Hcwd _].
  split; [exact Hcwd|].
  vm_compute in Hrun. injection Hrun as _ <-. reflexivity.
Defined.

Lemma keeps_warnings_fails_quietly {A : Type} (m : M A) :
  keeps_warnings m -> Run.fails_quietly m.
Proof. intros Hm w e w' Hrun. exact (keeps_warnings_run _ _ _ _ Hm Hrun). Qed.

Lemma fails_quietly_bind {A B : Type} (m : M A) (k : A -> M B) :
  keeps_warnings m -> (forall a, Run.fails_quietly (k a)) ->
  Run.fails_quietly (bind m k).
Proof.
  intros Hm Hk w e w' Hrun.
  apply bind_Raise_inv in Hrun as [Hrun | (a & w1 & Hrun & Hk1)].
  - exact (keeps_warnings_run _ _ _ _ Hm Hrun).
  - rewrite (Hk a _ _ _ Hk1). exact (keeps_warnings_run _ _ _ _ Hm Hrun).
Qed.

Lemma warnings_warn_fails_quietly (E : Env) (msg : string) :
  Run.fails_quietly (warnings_warn E msg).
Proof.
  intros w e w' Hrun. unfold warnings_warn in Hrun.
  destruct (warn_filter E w msg); try discriminate Hrun.
  now injection Hrun as _ <-.
Qed.

(** A run of [make_meta_yaml] that raises has issued no version warning:
    the version is compared with the tag only after both validators have
    passed, and a warning that the filters raise is not recorded.  The
    warnings after such a run are those before it or, once the setup
    script was reached, those the call of [parse_setup_py] left. *)
Theorem make_meta_yaml_fails_quietly (E : Env) (username repo : string)
    (maintainers : list string) (documentation_url : string) (w w' : World)
    (e : exn) :
  make_meta_yaml E username repo maintainers documentation_url w
    = (Raise e, w') ->
  warnings w' = warnings w \/
  exists tmp w5 outcome w6,
    parse_setup_py E tmp w5 = (outcome, w6) /\
    warnings w5 = warnings w /\
    warnings w' = warnings w6.
Proof.
  intros Hrun. unfold make_meta_yaml in Hrun.
  apply bind_Raise_inv in Hrun as [Hrun | (a & wa & _ & Hrun)];
    [|destruct a; discriminate Hrun].
  unfold make_meta in Hrun. cbn zeta in Hrun.
  apply bind_Raise_inv in Hrun as [Hrun | (tag_name & w1 & H1 & Hrun)].
  { left. exact (keeps_warnings_run _ _ _ _
                   (keeps_warnings_get_latest_release _ _ _) Hrun). }
  pose proof (keeps_warnings_run _ _ _ _
                (keeps_warnings_get_latest_release _ _ _) H1) as Hw1.
  apply bind_Raise_inv in Hrun as [Hrun | (response & w2 & H2 & Hrun)].
  { left. rewrite <- Hw1.
    exact (keeps_warnings_run _ _ _ _
             (keeps_warnings_download_tar_gz _ _ _ _) Hrun). }
  pose proof (keeps_warnings_run _ _ _ _
                (keeps_warnings_download_tar_gz _ _ _ _) H2) as Hw2.
  apply bind_Raise_inv in Hrun as [Hrun | (tmp & w3 & H3 & Hrun)].
  { left. rewrite <- Hw1, <- Hw2.
    exact (keeps_warnings_run _ _ _ _
             (keeps_warnings_extract_tar_gz _ _) Hrun). }
  pose proof (keeps_warnings_run _ _ _ _
                (keeps_warnings_extract_tar_gz _ _) H3) as Hw3.
  apply bind_Raise_inv in Hrun as [Hrun | ([lid lfile] & w4 & H4 & Hrun)].
  { left. rewrite <- Hw1, <- Hw2, <- Hw3.
    exact (keeps_warnings_run _ _ _ _
             (keeps_warnings_parse_license _ _) Hrun). }
  pose proof (keeps_warnings_run _ _ _ _
                (keeps_warnings_parse_license _ _) H4) as Hw4.
  apply bind_Raise_inv in Hrun as [Hrun | (requirements & w5 & H5 & Hrun)].
  { left. rewrite <- Hw1, <- Hw2, <- Hw3, <- Hw4.
    exact (keeps_warnings_run _ _ _ _
             (keeps_warnings_get_requirements _ _) Hrun). }
  pose proof (keeps_warnings_run _ _ _ _
                (keeps_warnings_get_requirements _ _) H5) as Hw5.
  assert (Hstart : warnings w5 = warnings w)
    by (rewrite Hw5, Hw4, Hw3, Hw2; exact Hw1).
  right. exists tmp, w5.
  apply bind_Raise_inv in Hrun as [Hrun | (distribution & w6 & H6 & Hrun)].
  { exists (Raise e), w'. repeat split; assumption. }
  exists (Ok distribution), w6. split; [exact H6|]. split; [exact Hstart|].
  apply bind_Raise_inv in Hrun as [Hrun | ([] & w7 & H7 & Hrun)].
  { exact (keeps_warnings_run _ _ _ _
             (keeps_warnings_validate_maintainers _ _) Hrun). }
  pose proof (keeps_warnings_run _ _ _ _
                (keeps_warnings_validate_maintainers _ _) H7) as Hw7.
  apply bind_Raise_inv in Hrun as [Hrun | ([] & w8 & H8 & Hrun)].
  { rewrite <- Hw7.
    exact (keeps_warnings_run _ _ _ _
             (keeps_warnings_validate_urls _ _) Hrun). }
  pose proof (keeps_warnings_run _ _ _ _
                (keeps_warnings_validate_urls _ _) H8) as Hw8.
  apply bind_Raise_inv in Hrun as [Hrun | (a & wa & _ & Hrun)];
    [|discriminate Hrun].
  rewrite <- Hw7, <- Hw8.
  destruct (negb (PyStr.str_in (get_version distribution) tag_name)).
  - exact (warnings_warn_fails_quietly _ _ _ _ _ Hrun).
  - discriminate Hrun.
Qed.

Lemma make_meta_yaml_fails_quietly_witness :
  exists e w',
    make_meta_yaml
      (Fixture.make (Fixture.read "MIT License") Fixture.noisy_script
         Fixture.default_filter 404 "Not Found")
      "octo" "samplepkg" ["alice"] "" Fixture.w0 = (Raise e, w') /\
    e = maintainer_not_found "alice" /\
    warnings w' = ["Unknown distribution option: 'foo'"] /\
    (warnings w' = warnings Fixture.w0 \/
     exists tmp w5 outcome w6,
       parse_setup_py
         (Fixture.make (Fixture.read "MIT License") Fixture.noisy_script
            Fixture.default_filter 404 "Not Found") tmp w5 = (outcome, w6) /\
       warnings w5 = warnings Fixture.w0 /\
       warnings w' = warnings w6).
Proof.
  destruct (make_meta_yaml
              (Fixture.make (Fixture.read "MIT License") Fixture.noisy_script
                 Fixture.default_filter 404 "Not Found")
              "octo" "samplepkg" ["alice"] "" Fixture.w0)
    as [[manifest | e] w'] eqn:Hrun; [vm_compute in Hrun; discriminate Hrun|].
  exists e, w'. split; [reflexivity|].
  pose proof (make_meta_yaml_fails_quietly _ _ _ _ _ _ _ _ Hrun) as Hw.
  vm_compute in Hrun. injection Hrun as <- <-.
  split; [reflexivity|]. split; [reflexivity | exact Hw].
Defined.

(** ** The document *)

(** The sections of the document of a run that returns, by the results of
    the stages they come from. *)
Lemma make_meta_Ok_sections (E : Env) (username repo : string)
    (maintainers : list string) (documentation_url : string)
    (w w' : World) (preamble : string) (meta : Yaml) :
  make_meta E username repo maintainers documentation_url w
    = (Ok (preamble, meta), w') ->
  exists tag_name w1 response w2 tmp w3 license_id license_file w4
         distribution w5 w6,
    get_latest_release E username repo w = (Ok tag_name, w1) /\
    download_tar_gz E username repo tag_name w1 = (Ok response, w2) /\
    parse_license E tmp w3 = (Ok (license_id, license_file), w4) /\
    parse_setup_py E tmp w5 = (Ok distribution, w6) /\
    preamble = preamble_of (get_name distribution) (get_version distribution) /\
    Run.keys meta
      = ["package"; "source"; "build"; "requirements"; "test"; "about"; "extra"] /\
    yget ["package"] meta
      = Some (YMap [("name", YStr "{{ name | lower }}");
                    ("version", YStr "{{ version }}")]) /\
    yget ["source"] meta
      = Some (YMap [("url", YStr (Run.archive_url username repo tag_name));
                    ("sha256", YStr (sha256_hexdigest E (content response)))]) /\
    yget ["build"] meta
      = Some (YMap [("number", YInt 0);
                    ("script", YStr "{{ PYTHON }} -m pip install . -vv")]) /\
    yget ["test"] meta
      = Some (YMap [("imports", YSeq [YStr (get_name distribution)])]) /\
    yget ["about"] meta
      = Some (YMap [("home", YStr (get_url distribution));
                    ("license", YStr license_id);
                    ("license_file", YStr license_file);
                    ("summary", YStr (get_description distribution));
                    ("doc_url", YStr documentation_url);
                    ("dev_url", YStr (Run.github_url username repo))]) /\
    yget ["extra"] meta
      = Some (YMap [("recipe_maintainers", YSeq (map YStr maintainers))]).
Proof.
  unfold make_meta. cbn zeta. intros H.
  apply bind_Ok_inv in H as (tag_name & w1 & H1 & H).
  apply bind_Ok_inv in H as (response & w2 & H2 & H).
  apply bind_Ok_inv in H as (tmp & w3 & H3 & H).
  apply bind_Ok_inv in H as ([license_id license_file] & w4 & H4 & H).
  apply bind_Ok_inv in H as (requirements & w5 & H5 & H).
  apply bind_Ok_inv in H as (distribution & w6 & H6 & H).
  apply bind_Ok_inv in H as ([] & w7 & H7 & H).
  apply bind_Ok_inv in H as ([] & w8 & H8 & H).
  apply bind_Ok_inv in H as ([] & w9 & H9 & H).
  unfold ret in H. injection H as <- <- <-.
  exists tag_name, w1, response, w2, tmp, w3, license_id, license_file, w4,
         distribution, w5, w6.
  repeat (split; [assumption|]). repeat split.
Qed.

Lemma download_tar_gz_Ok_inv (E : Env) (username repo tag_name : string)
    (w w' : World) (response : Response) :
  download_tar_gz E username repo tag_name w = (Ok response, w') ->
  http_get E (requests w) (Run.archive_url username repo tag_name)
    = Ok response.
Proof.
  unfold download_tar_gz, bind, requests_get, lift, ret. cbn zeta.
  change ("https://github.com/" ++ username ++ "/" ++ repo
          ++ "/archive/refs/tags/" ++ tag_name ++ ".tar.gz")
    with (Run.archive_url username repo tag_name).
  destruct (http_get E (requests w) (Run.archive_url username repo tag_name))
    as [resp | e]; [|discriminate].
  destruct (raise_for_status resp); [|discriminate].
  intros H. injection H as <- _. reflexivity.
Qed.

(** The source section of a manifest names what was downloaded: its url is
    the archive address of the tag that [get_latest_release] returned, the
    very address whose GET gave the response, and its sha256 is the digest
    of the content of that response. *)
Theorem manifest_source (E : Env) (username repo : string)
    (maintainers : list string) (documentation_url : string)
    (w w' : World) (preamble : string) (meta : Yaml) :
  make_meta E username repo maintainers documentation_url w
    = (Ok (preamble, meta), w') ->
  exists tag_name w1 response,
    get_latest_release E username repo w = (Ok tag_name, w1) /\
    http_get E (requests w1) (Run.archive_url username repo tag_name)
      = Ok response /\
    yget ["source"; "url"] meta
      = Some (YStr (Run.archive_url username repo tag_name)) /\
    yget ["source"; "sha256"] meta
      = Some (YStr (sha256_hexdigest E (content response))).
Proof.
  intros Hrun.
  apply make_meta_Ok_sections in Hrun
    as (tag_name & w1 & response & w2 & tmp & w3 & license_id & license_file
        & w4 & distribution & w5 & w6
        & H1 & H2 & _ & _ & _ & _ & _ & Hsource & _).
  exists tag_name, w1, response.
  split; [exact H1|]. split; [exact (download_tar_gz_Ok_inv _ _ _ _ _ _ _ H2)|].
  cbn [yget] in Hsource |- *.
  destruct meta as [| | |entries]; try discriminate Hsource.
  destruct (assoc "source" entries) as [v|]; [|discriminate Hsource].
  injection Hsource as ->. split; reflexivity.
Qed.

Lemma manifest_source_witness :
  exists meta,
    fst (make_meta Fixture.good "octo" "samplepkg" ["alice"] "" Fixture.w0)
      = Ok (preamble_of "samplepkg" "1.2.0", meta) /\
    yget ["source"; "url"] meta
      = Some (YStr "https://github.com/octo/samplepkg/archive/refs/tags/v1.2.0.tar.gz") /\
    yget ["source"; "sha256"] meta = Some (YStr "0f3a").
Proof.
  destruct (make_meta Fixture.good "octo" "samplepkg" ["alice"] "" Fixture.w0)
    as [[[preamble meta] | e] w'] eqn:Hrun;
    [|vm_compute in Hrun; discriminate Hrun].
  destruct (manifest_source Fixture.good "octo" "samplepkg" ["alice"] ""
              Fixture.w0 w' preamble meta Hrun)
    as (tag_name & w1 & response & _ & _ & _ & _).
  vm_compute in Hrun. injection Hrun as <- <- _.
  eexists. split; [reflexivity|]. split; reflexivity.
Defined.

(** The about, test and extra sections of a manifest are filled from the
    stages: the license identifier and file name are the pair
    [parse_license] returned, home page, summary and test import are what
    the distribution of [parse_setup_py] gives for url, description and
    name, the maintainers are listed as given, in order, and the package
    section refers to the two variables that the preamble sets from the
    name and version of the distribution. *)
Theorem manifest_about (E : Env) (username repo : string)
    (maintainers : list string) (documentation_url : string)
    (w w' : World) (preamble : string) (meta : Yaml) :
  make_meta E username repo maintainers documentation_url w
    = (Ok (preamble, meta), w') ->
  exists tmp w3 license_id license_file w4 distribution w5 w6,
    parse_license E tmp w3 = (Ok (license_id, license_file), w4) /\
    parse_setup_py E tmp w5 = (Ok distribution, w6) /\
    yget ["about"; "license"] meta = Some (YStr license_id) /\
    yget ["about"; "license_file"] meta = Some (YStr license_file) /\
    yget ["about"; "home"] meta = Some (YStr (get_url distribution)) /\
    yget ["about"; "summary"] meta = Some (YStr (get_description distribution)) /\
    yget ["about"; "doc_url"] meta = Some (YStr documentation_url) /\
    yget ["about"; "dev_url"] meta = Some (YStr (Run.github_url username repo)) /\
    yget ["test"; "imports"] meta = Some (YSeq [YStr (get_name distribution)]) /\
    yget ["extra"; "recipe_maintainers"] meta
      = Some (YSeq (map YStr maintainers)) /\
    yget ["package"; "name"] meta = Some (YStr "{{ name | lower }}") /\
    yget ["package"; "version"] meta = Some (YStr "{{ version }}") /\
    preamble
      = "{% set name = '" ++ get_name distribution ++ "' %}" ++ PyStr.nl
        ++ "{% set version = '" ++ get_version distribution ++ "' %}".
Proof.
  intros Hrun.
  apply make_meta_Ok_sections in Hrun
    as (tag_name & w1 & response & w2 & tmp & w3 & license_id & license_file
        & w4 & distribution & w5 & w6
        & _ & _ & H4 & H6 & -> & _ & Hpackage & _ & _ & Htest & Habout & Hextra).
  exists tmp, w3, license_id, license_file, w4, distribution, w5, w6.
  split; [exact H4|]. split; [exact H6|].
  cbn [yget] in *.
  destruct meta as [| | |entries]; try discriminate Hpackage.
  destruct (assoc "package" entries) as [v1|]; [|discriminate Hpackage].
  destruct (assoc "test" entries) as [v2|]; [|discriminate Htest].
  destruct (assoc "about" entries) as [v3|]; [|discriminate Habout].
  destruct (assoc "extra" entries) as [v4|]; [|discriminate Hextra].
  injection Hpackage as ->. injection Htest as ->.
  injection Habout as ->. injection Hextra as ->.
  repeat split.
  unfold preamble_of. cbn [PyStr.join]. rewrite !append_assoc. reflexivity.
Qed.

Lemma manifest_about_witness :
  exists meta,
    fst (make_meta Fixture.good "octo" "samplepkg" ["alice"] "" Fixture.w0)
      = Ok (preamble_of "samplepkg" "1.2.0", meta) /\
    yget ["about"; "license"] meta = Some (YStr "MIT") /\
    yget ["about"; "license_file"] meta = Some (YStr "LICENSE") /\
    yget ["test"; "imports"] meta = Some (YSeq [YStr "samplepkg"]).
Proof.
  destruct (make_meta Fixture.good "octo" "samplepkg" ["alice"] "" Fixture.w0)
    as [[[preamble meta] | e] w'] eqn:Hrun;
    [|vm_compute in Hrun; discriminate Hrun].
  destruct (manifest_about Fixture.good "octo" "samplepkg" ["alice"] ""
              Fixture.w0 w' preamble meta Hrun)
    as (tmp & w3 & license_id & license_file & w4 & distribution & w5 & w6
        & _).
  vm_compute in Hrun. injection Hrun as <- <- _.
  eexists. split; [reflexivity|]. repeat split.
Defined.

(** ** What a failing [parse_setup_py] leaves behind *)

(** Once [parse_setup_py] has found the script and entered its directory,
    it starts the script with that directory first on [sys.path] and
    changes nothing but the working directory afterwards, whatever the
    outcome: [sys.path], the warnings and the requests after the call are
    those the script left, also when the script raises or the way back to
    the former directory fails; the entry is not taken off [sys.path]
    again. *)
Theorem parse_setup_py_sys_path_any_outcome (E : Env) (path : string)
    (w : World) (filepath : string) :
  first_match "setup" (os_walk E path) = Some filepath ->
  chdir_error E (OsPath.dirname filepath) = None ->
  exists outcome w2,
    run_setup E
      (mkWorld (OsPath.dirname filepath)
         (OsPath.dirname filepath :: sys_path w) (warnings w) (requests w))
      filepath = (outcome, w2) /\
    sys_path (snd (parse_setup_py E path w)) = sys_path w2 /\
    warnings (snd (parse_setup_py E path w)) = warnings w2 /\
    requests (snd (parse_setup_py E path w)) = requests w2 /\
    (forall e, outcome = Raise e ->
       parse_setup_py E path w = (Raise e, w2)).
Proof.
  intros Hfind Hcd.
  rewrite (parse_setup_py_found E path w filepath Hfind), Hcd. cbn zeta.
  unfold set_sys_path, set_cwd. cbn [cwd sys_path warnings requests].
  destruct (run_setup E _ filepath) as [[distribution | x] w2] eqn:Hsetup.
  - exists (Ok distribution), w2. split; [reflexivity|].
    destruct (chdir_error E (cwd w)); repeat split; discriminate.
  - exists (Raise x), w2. split; [reflexivity|]. repeat split.
    intros e He. now injection He as <-.
Qed.

Lemma parse_setup_py_sys_path_any_outcome_witness :
  exists outcome w2,
    run_setup Fixture.malformed
      (mkWorld (OsPath.dirname (Fixture.top ++ "/setup.py"))
         (OsPath.dirname (Fixture.top ++ "/setup.py") :: sys_path Fixture.w0)
         (warnings Fixture.w0) (requests Fixture.w0))
      (Fixture.top ++ "/setup.py") = (outcome, w2) /\
    sys_path (snd (parse_setup_py Fixture.malformed Fixture.tmp Fixture.w0))
      = sys_path w2 /\
    warnings (snd (parse_setup_py Fixture.malformed Fixture.tmp Fixture.w0))
      = warnings w2 /\
    requests (snd (parse_setup_py Fixture.malformed Fixture.tmp Fixture.w0))
      = requests w2 /\
    (forall e, outcome = Raise e ->
       parse_setup_py Fixture.malformed Fixture.tmp Fixture.w0 = (Raise e, w2)).
Proof.
  apply (parse_setup_py_sys_path_any_outcome Fixture.malformed Fixture.tmp
           Fixture.w0 (Fixture.top ++ "/setup.py")); reflexivity.
Defined.
